(** * The request pipeline of [src/api/main.py]

    A shallow embedding of the three middleware classes, the error helper
    [json_error_response], the two exception handlers and the health-check
    endpoint defined in [main.py], followed by the properties the
    specification states about them.

    Conventions of the embedding.
    - Python values that end up in a JSON body are terms of [json]; a Python
      [dict] is an association list in insertion order.
    - An [async] function that can log, read the clock or raise is a
      computation in the monad [M]: it threads a [World] (clock and log sink)
      and returns either the raised [Exception] or a value.  State changes
      made before a [raise] are kept, as in Python.
    - The request object is mutated by the source ([request.body()] caches,
      [request._receive] is reassigned); the embedding passes the updated
      request along explicitly.
    - What the source only imports ([Request.body], the header mapping,
      [JSONResponse], the nesting of the middleware list, routing, the
      lookup of exception handlers) is not code of this repository.  Its
      model follows the specification's description of it and is marked
      "Modelled from the spec" where it is defined. *)

From Stdlib Require Import ZArith List String Ascii Bool Lia.
From Stdlib Require Import Init.Byte.
Import ListNotations.
Local Open Scope string_scope.
Local Open Scope list_scope.
Set Warnings "-register-all".

(** ** Strings *)

(** [c.lower()] on one ASCII character. *)
Definition lower_ascii (c : ascii) : ascii :=
  let n := nat_of_ascii c in
  if (65 <=? n)%nat && (n <=? 90)%nat then ascii_of_nat (n + 32) else c.

(** [s.lower()] for the ASCII strings used as header names. *)
Fixpoint lower (s : string) : string :=
  match s with
  | EmptyString => EmptyString
  | String c t => String (lower_ascii c) (lower t)
  end.

(** [hay.startswith(needle)]. *)
Fixpoint startswith (needle hay : string) : bool :=
  match needle, hay with
  | EmptyString, _ => true
  | String _ _, EmptyString => false
  | String a n', String b h' => Ascii.eqb a b && startswith n' h'
  end.

(** Python's [needle in hay] on strings. *)
Fixpoint contains (needle hay : string) : bool :=
  startswith needle hay ||
  match hay with
  | EmptyString => false
  | String _ h' => contains needle h'
  end.

(** [x in (a, b, c)] on strings. *)
Definition str_in (x : string) (xs : list string) : bool :=
  existsb (String.eqb x) xs.

(** ** Bytes and JSON-serialisable values *)

Definition bytes := list byte.

(** [len(body)] as a Python integer. *)
Definition len (b : bytes) : Z := Z.of_nat (List.length b).

Inductive json : Type :=
| JNone
| JBool (b : bool)
| JInt (n : Z)
| JStr (s : string)
| JList (items : list json)
| JDict (items : list (string * json)).

Definition dict := list (string * json).

(** [d[k]], [None] where Python raises [KeyError]. *)
Fixpoint getitem (d : dict) (k : string) : option json :=
  match d with
  | [] => None
  | (k', v) :: t => if String.eqb k' k then Some v else getitem t k
  end.

(** [d[k] = v]: replaces the value of an existing key in place, appends a
    new key at the end. *)
Fixpoint setitem (d : dict) (k : string) (v : json) : dict :=
  match d with
  | [] => [(k, v)]
  | (k', v') :: t =>
      if String.eqb k' k then (k', v) :: t else (k', v') :: setitem t k v
  end.

(** [list(d.keys())]. *)
Definition keys (d : dict) : list string := map fst d.

(** ** Header lists

    Modelled from the spec: the header mapping of requests and responses
    ([Headers], [MutableHeaders]) is the web framework's and is not in this
    repository.  The spec has it as a "mapping of header-name to value,
    case-insensitive keys" in which "duplicate keys must not be silently
    dropped", and reads [setdefault] as "set if absent".  Here it is the
    list of (name, value) pairs in wire order, duplicates allowed, names
    stored in lower case; every operation lower-cases the key it is given
    and compares it with the stored names. *)
Module Headers.

Definition t := list (string * string).

(** [headers.get(key, default)]: the value of the first entry whose stored
    name equals [key.lower()]. *)
Fixpoint get (h : t) (key default : string) : string :=
  match h with
  | [] => default
  | (item_key, item_value) :: rest =>
      if String.eqb item_key (lower key) then item_value
      else get rest key default
  end.

(** [key in headers]. *)
Fixpoint mem (h : t) (key : string) : bool :=
  match h with
  | [] => false
  | (item_key, _) :: rest =>
      String.eqb item_key (lower key) || mem rest key
  end.

(** [headers[key]], [None] where Python raises [KeyError]. *)
Fixpoint lookup (h : t) (key : string) : option string :=
  match h with
  | [] => None
  | (item_key, item_value) :: rest =>
      if String.eqb item_key (lower key) then Some item_value
      else lookup rest key
  end.

(** [headers.setdefault(key, value)] of the mutable header list: scan for
    an entry named [key.lower()]; when there is one the list is left as it
    is, otherwise [(key.lower(), value)] is appended. *)
Fixpoint setdefault (h : t) (key value : string) : t :=
  match h with
  | [] => [(lower key, value)]
  | (item_key, item_value) :: rest =>
      if String.eqb item_key (lower key) then h
      else (item_key, item_value) :: setdefault rest key value
  end.

End Headers.

(** ** Responses *)

(** The payload of a response: the [content=] handed to [JSONResponse], or
    raw bytes for any other response. *)
Inductive Body : Type :=
| JSONContent (content : json)
| RawBytes (data : bytes).

Module Response.

Record t : Type := mk {
  status_code : Z;
  headers : Headers.t;
  body : Body
}.

Definition with_headers (r : t) (h : Headers.t) : t :=
  mk (status_code r) h (body r).

End Response.

(** Modelled from the spec: [JSONResponse(status_code=..., content=...)] is
    the framework's constructor.  A response is "status code, headers,
    body"; this one has the given status, the given content as its body and
    the JSON media type as its content type.  The [content-length] header,
    which depends on the rendered bytes, is left out. *)
Definition JSONResponse (status_code : Z) (content : json) : Response.t :=
  Response.mk status_code [("content-type", "application/json")]
              (JSONContent content).

(** ** Python values and what [json.dumps] accepts

    [json] holds the values [json.dumps] can encode.  What a library hands
    over as [Any] need not be one: [pyobj] adds [PObject], an instance of a
    class the encoder has no rule for (an exception object, for example). *)
Inductive pyobj : Type :=
| PNone
| PBool (b : bool)
| PInt (n : Z)
| PStr (s : string)
| PList (items : list pyobj)
| PDict (items : list (string * pyobj))
| PObject (class_name text : string).

(** The value as [json.dumps] encodes it; [None] where it raises
    [TypeError] because some object inside has no encoding. *)
Fixpoint to_json (v : pyobj) : option json :=
  match v with
  | PNone => Some JNone
  | PBool b => Some (JBool b)
  | PInt n => Some (JInt n)
  | PStr s => Some (JStr s)
  | PList items =>
      option_map JList
        ((fix each (l : list pyobj) : option (list json) :=
            match l with
            | [] => Some []
            | x :: rest =>
                match to_json x, each rest with
                | Some j, Some js => Some (j :: js)
                | _, _ => None
                end
            end) items)
  | PDict items =>
      option_map JDict
        ((fix each (l : list (string * pyobj)) : option dict :=
            match l with
            | [] => Some []
            | (k, x) :: rest =>
                match to_json x, each rest with
                | Some j, Some js => Some ((k, j) :: js)
                | _, _ => None
                end
            end) items)
  | PObject _ _ => None
  end.

(** A [json] value seen as the Python value it is. *)
Fixpoint of_json (j : json) : pyobj :=
  match j with
  | JNone => PNone
  | JBool b => PBool b
  | JInt n => PInt n
  | JStr s => PStr s
  | JList items => PList (map of_json items)
  | JDict items => PDict (map (fun kv => (fst kv, of_json (snd kv))) items)
  end.

(** ** Exceptions *)

(** Modelled from the spec: the exception classes are Python's and the
    framework's.  The spec separates the structured validation failure,
    which "carries a list of field/message pairs", from "any other
    propagated failure".  [RequestValidationError] is the former, with the
    [Sequence[Any]] it was constructed with;
    [ClientDisconnect] and [RuntimeError] are what a body read can raise;
    [OtherException] is any other subclass of [Exception].  [text] stands
    for [str(exc)] and [traceback] for the stack trace the exception object
    carries. *)
Inductive Exception : Type :=
| RequestValidationError (errors : list pyobj) (text traceback : string)
| ClientDisconnect
| RuntimeError (text : string)
| OtherException (class_name text traceback : string).

(** [exc.errors()] of a [RequestValidationError]. *)
Definition errors (exc : Exception) : list pyobj :=
  match exc with
  | RequestValidationError es _ _ => es
  | _ => []
  end.

(** [isinstance(exc, RequestValidationError)]. *)
Definition is_validation_error (exc : Exception) : bool :=
  match exc with
  | RequestValidationError _ _ _ => true
  | _ => false
  end.

(** ** Requests *)

(** Modelled from the spec: how a request body arrives is the server's and
    the framework's business.  The spec has the body as a "byte sequence,
    lazily/eagerly materialized"; here it arrives as the messages a
    [receive] callable hands out: a chunk with a flag telling whether more
    follow, or the notice that the client is gone. *)
Inductive Message : Type :=
| http_request (body : bytes) (more_body : bool)
| http_disconnect.

(** The [receive] callables a request of this program can hold:
    - [asgi_receive pending], the server's callable: each call hands out the
      next pending message and, once they are used up, [http.disconnect];
    - [receive_with_body body], the closure defined at lines 81-82. *)
Inductive Receive : Type :=
| asgi_receive (pending : list Message)
| receive_with_body (body : bytes).

(** One [await receive()]: the message returned and the callable's state
    afterwards.  The closure of lines 81-82 has no state of its own. *)
Definition call (r : Receive) : Message * Receive :=
  match r with
  | asgi_receive [] => (http_disconnect, asgi_receive [])
  | asgi_receive (m :: rest) => (m, asgi_receive rest)
  | receive_with_body body => (http_request body false, receive_with_body body)
  end.

(** An upper bound on the number of [receive] calls one body read makes. *)
Definition receive_bound (r : Receive) : nat :=
  match r with
  | asgi_receive pending => S (List.length pending)
  | receive_with_body _ => 1
  end.

Module Request.

Record t : Type := mk {
  method : string;
  path : string;                    (* request.url.path *)
  headers : Headers.t;
  client : option (string * Z);     (* (host, port), or None *)
  _receive : Receive;
  _body : option bytes;             (* None: attribute not set yet *)
  _stream_consumed : bool
}.

Definition set_receive (r : t) (rcv : Receive) : t :=
  mk (method r) (path r) (headers r) (client r) rcv (_body r)
     (_stream_consumed r).

(** Modelled from the spec: reading a body ("reads the full body") is the
    framework's [Request.stream]: call [receive] until a message with
    [more_body] false arrives, joining the chunks in order;
    [http.disconnect] raises [ClientDisconnect].  [fuel] bounds the number
    of calls; [None] means the bound was too small, which
    [stream_terminates] rules out for [receive_bound]. *)
Fixpoint stream (fuel : nat) (rcv : Receive) (chunks : bytes)
  : option ((Exception + bytes) * Receive) :=
  match fuel with
  | O => None
  | S fuel' =>
      match call rcv with
      | (http_request body more_body, rcv') =>
          if more_body then stream fuel' rcv' (chunks ++ body)
          else Some (inr (chunks ++ body), rcv')
      | (http_disconnect, rcv') => Some (inl ClientDisconnect, rcv')
      end
  end.

(** Modelled from the spec: [await request.body()] is the framework's.
    It answers with the cached body when there is one; otherwise it drains
    the stream, caches the joined chunks in [_body] and returns them.  The
    request object after the call is returned alongside. *)
Definition body (r : t) : (Exception + bytes) * t :=
  match _body r with
  | Some b => (inr b, r)
  | None =>
      if _stream_consumed r then (inl (RuntimeError "Stream consumed"), r)
      else
        match stream (receive_bound (_receive r)) (_receive r) [] with
        | Some (inr b, rcv') =>
            (inr b, mk (method r) (path r) (headers r) (client r) rcv'
                       (Some b) true)
        | Some (inl e, rcv') => (inl e, set_receive r rcv')
        | None => (inl (RuntimeError "unreachable"), r)
        end
  end.

(** [Request(scope, receive)]: a new request object over the same
    connection and the given [receive]. *)
Definition over (r : t) (rcv : Receive) : t :=
  mk (method r) (path r) (headers r) (client r) rcv None false.

End Request.

(** [n] successive [await receive()] calls: the messages, in order, and the
    callable afterwards. *)
Fixpoint receive_n (n : nat) (rcv : Receive) : list Message * Receive :=
  match n with
  | O => ([], rcv)
  | S n' =>
      let '(m, rcv') := call rcv in
      let '(ms, rcv'') := receive_n n' rcv' in
      (m :: ms, rcv'')
  end.

(** [n] successive body reads through a given [receive] callable, each by
    a fresh request object built over the callable as the previous read
    left it.  These are reads through the request object's own [receive];
    what the framework hands a downstream application is
    [wrapped_receive] below. *)
Fixpoint read_n (n : nat) (r : Request.t) (rcv : Receive)
  : list (Exception + bytes) * Receive :=
  match n with
  | O => ([], rcv)
  | S n' =>
      let '(res, r') := Request.body (Request.over r rcv) in
      let '(rest, rcv') := read_n n' r (Request._receive r') in
      (res :: rest, rcv')
  end.

(** ** What the framework hands a downstream application

    Modelled from the spec: the [receive] callable that [call_next] gives
    the rest of the chain is the framework's and is not in this repository.
    The spec asks that the body the stage has read be "available unchanged
    to the terminal handler".  The framework (Starlette from 0.28 on, class
    [_CachedRequest]) does not pass [request._receive] on: it wraps the
    request object the stage was given and answers downstream calls with
    [wrapped_receive], which hands out the cached body once and after that
    expects nothing but [http.disconnect] from [request.receive]. *)
Record CachedRequest : Type := mkCachedRequest {
  base : Request.t;                   (* the request object of the stage *)
  _is_disconnected : bool;
  _wrapped_rcv_disconnected : bool;
  _wrapped_rcv_consumed : bool
}.

(** The wrapper around a request object on which no downstream call has
    been made yet. *)
Definition downstream_of (r : Request.t) : CachedRequest :=
  mkCachedRequest r false false false.

(** [await stream.__anext__()] on a body not read so far: the next chunk
    that is not empty, or the empty chunk that ends the stream, with the
    value of [_stream_consumed] afterwards; [ClientDisconnect] when the
    client is gone.  [fuel] bounds the calls of [receive]. *)
Fixpoint next_chunk (fuel : nat) (rcv : Receive)
  : option ((Exception + bytes * bool) * Receive) :=
  match fuel with
  | O => None
  | S fuel' =>
      match call rcv with
      | (http_request body more_body, rcv') =>
          if more_body then
            match body with
            | [] => next_chunk fuel' rcv'
            | _ :: _ => Some (inr (body, false), rcv')
            end
          else Some (inr (body, true), rcv')
      | (http_disconnect, rcv') => Some (inl ClientDisconnect, rcv')
      end
  end.

(** One downstream [await receive()]: the message or the failure, and the
    wrapper afterwards. *)
Definition wrapped_receive (c : CachedRequest)
  : (Exception + Message) * CachedRequest :=
  if _wrapped_rcv_disconnected c then (inr http_disconnect, c)
  else if _wrapped_rcv_consumed c then
    if _is_disconnected c then
      (inr http_disconnect,
       mkCachedRequest (base c) (_is_disconnected c) true true)
    else
      (* msg = await self.receive() *)
      let '(msg, rcv') := call (Request._receive (base c)) in
      let base' := Request.set_receive (base c) rcv' in
      match msg with
      | http_disconnect =>
          (inr http_disconnect,
           mkCachedRequest base' (_is_disconnected c) true true)
      | http_request _ _ =>
          (inl (RuntimeError "Unexpected message received: http.request"),
           mkCachedRequest base' (_is_disconnected c) false true)
      end
  else
    match Request._body (base c) with
    | Some body =>
        (inr (http_request body false),
         mkCachedRequest (base c) (_is_disconnected c) false true)
    | None =>
        if Request._stream_consumed (base c) then
          (inr (http_request [] false),
           mkCachedRequest (base c) (_is_disconnected c) false true)
        else
          let r := base c in
          match next_chunk (receive_bound (Request._receive r))
                  (Request._receive r) with
          | Some (inr (chunk, consumed), rcv') =>
              (inr (http_request chunk (negb consumed)),
               mkCachedRequest
                 (Request.mk (Request.method r) (Request.path r)
                    (Request.headers r) (Request.client r) rcv' None consumed)
                 (_is_disconnected c) false consumed)
          | Some (inl _, rcv') =>
              (inr http_disconnect,
               mkCachedRequest (Request.set_receive r rcv') true true false)
          | None => (inl (RuntimeError "unreachable"), c)
          end
    end.

(** A body read by a downstream application: a fresh request object over
    [wrapped_receive] calls it until a message with [more_body] false
    arrives.  [fuel] bounds the calls. *)
Fixpoint downstream_body (fuel : nat) (c : CachedRequest) (chunks : bytes)
  : option ((Exception + bytes) * CachedRequest) :=
  match fuel with
  | O => None
  | S fuel' =>
      match wrapped_receive c with
      | (inl exc, c') => Some (inl exc, c')
      | (inr (http_request body more_body), c') =>
          if more_body then downstream_body fuel' c' (chunks ++ body)
          else Some (inr (chunks ++ body), c')
      | (inr http_disconnect, c') => Some (inl ClientDisconnect, c')
      end
  end.

(** ** Centralised error handlers (lines 86-96 and 134-151) *)

(** Truth value of [details] in [if details:]: [None] and the empty dict are
    false. *)
Definition truthy (details : option dict) : bool :=
  match details with
  | Some (_ :: _) => true
  | _ => false
  end.

(** The default of the [code] parameter of [json_error_response]. *)
Definition default_code : string := "ERROR".

(** [json_error_response(status_code, message, code, details)], lines
    87-96; [details=None] is [None]. *)
Definition json_error_response
  (status_code : Z) (message code : string) (details : option dict)
  : Response.t :=
  let payload : dict :=
    [("error", JDict [("message", JStr message); ("code", JStr code)])] in
  let payload : dict :=
    if truthy details then
      (* payload["error"]["details"] = details *)
      match details, getitem payload "error" with
      | Some d, Some (JDict error) =>
          setitem payload "error" (JDict (setitem error "details" (JDict d)))
      | _, _ => payload
      end
    else payload in
  JSONResponse status_code (JDict payload).

(** What [JSONResponse(content=...)] raises when [json.dumps] meets an
    object it cannot encode. *)
Definition not_serializable : Exception :=
  OtherException "TypeError" "Object is not JSON serializable" "".

(** Lines 135-142.  [exc.errors()] is put into [details] as it is and
    reaches [JSONResponse] at line 96 unencoded; rendering it there either
    encodes the whole list or raises [TypeError], and then the handler
    returns nothing.  [message] and [code] are strings, so the list is the
    only part of the payload that can fail to encode. *)
Definition validation_exception_handler
  (request : Request.t) (exc : Exception) : Exception + Response.t :=
  match to_json (PList (errors exc)) with
  | Some errs =>
      inr (json_error_response 422 "Validation error" "VALIDATION_ERROR"
             (Some [("errors", errs)]))
  | None => inl not_serializable
  end.

(** Lines 144-151. *)
Definition unhandled_exception_handler
  (request : Request.t) (exc : Exception) : Response.t :=
  json_error_response 500 "Internal server error" "INTERNAL_SERVER_ERROR" None.

(** Modelled from the spec: which registered handler answers a failure is
    decided by the framework.  The spec has the Error Translator as a
    "stateless translation function keyed on failure kind": the handler
    registered for [RequestValidationError] (line 135) when the failure is
    one, the handler registered for [Exception] (line 144) otherwise.  A
    failure raised by the first handler itself is "any other uncaught
    failure" and is answered by the second. *)
Definition error_translator
  (request : Request.t) (exc : Exception) : Response.t :=
  if is_validation_error exc then
    match validation_exception_handler request exc with
    | inr response => response
    | inl raised => unhandled_exception_handler request raised
    end
  else unhandled_exception_handler request exc.

(** ** The error envelope, as the specification words it

    [{ error: { message: string, code: string, details?: mapping } }]:
    exactly one top-level key, [error]; under it [message] and [code], both
    strings, optionally followed by [details], a mapping; nothing else. *)
Definition is_error_envelope (b : Body) : bool :=
  match b with
  | JSONContent (JDict [("error", JDict inner)]) =>
      match inner with
      | [("message", JStr _); ("code", JStr _)] => true
      | [("message", JStr _); ("code", JStr _); ("details", JDict _)] => true
      | _ => false
      end
  | _ => false
  end.

(** [b["error"]], [b["error"][k]]. *)
Definition envelope_error (b : Body) : option dict :=
  match b with
  | JSONContent (JDict top) =>
      match getitem top "error" with
      | Some (JDict inner) => Some inner
      | _ => None
      end
  | _ => None
  end.

Definition envelope_field (b : Body) (k : string) : option json :=
  match envelope_error b with
  | Some inner => getitem inner k
  | None => None
  end.

(** ["details" in b["error"]]. *)
Definition has_details (b : Body) : bool :=
  match envelope_field b "details" with
  | Some _ => true
  | None => false
  end.

(** ** The log sink

    Modelled from the spec: the [logging] module is Python's.  The spec
    treats the logger as a sink with a "record(event)" operation; an event
    here is what one call on [logger] passes: level, format string,
    arguments and, for [logger.exception], the failure being handled. *)

Inductive Level : Type := INFO | ERROR.

(** Arguments of a log call: strings and integers. *)
Inductive LogArg : Type :=
| ArgStr (s : string)
| ArgInt (n : Z).

Record LogRecord : Type := mkLogRecord {
  levelname : Level;
  msg : string;
  args : list LogArg;
  exc_info : option Exception
}.

(** Python floats and the operations line 44 applies to them: subtraction,
    multiplication, the conversion of the literal [1000] and [int(x)].  The
    development does not depend on how they round; [int_of_float] is
    [int(x)] on the finite values that differences of clock readings are. *)
Class PyFloat : Type := {
  float : Type;
  float_sub : float -> float -> float;
  float_mul : float -> float -> float;
  float_of_int : Z -> float;
  int_of_float : float -> Z
}.

Section Pipeline.

Context {F : PyFloat}.

(** ** The world a request is handled in

    [clock n] is what the [n]-th call of [time.time()] returns and
    [clock_reads] counts the calls made so far; [log] is what [logger] has
    been given, oldest first. *)
Record World : Type := mkWorld {
  clock : nat -> float;
  clock_reads : nat;
  log : list LogRecord
}.

(** Computations that may raise and that read the clock or log. *)
Definition M (A : Type) : Type := World -> (Exception + A) * World.

Definition ret {A : Type} (a : A) : M A := fun w => (inr a, w).

Definition bind {A B : Type} (m : M A) (k : A -> M B) : M B :=
  fun w =>
    match m w with
    | (inl e, w') => (inl e, w')
    | (inr a, w') => k a w'
    end.

Definition raise {A : Type} (e : Exception) : M A := fun w => (inl e, w).

(** [try: m  except Exception: h]; inside [h] the failure being handled is
    the argument, so a bare [raise] is [raise exc]. *)
Definition try_except {A : Type} (m : M A) (h : Exception -> M A) : M A :=
  fun w =>
    match m w with
    | (inl e, w') => h e w'
    | (inr a, w') => (inr a, w')
    end.

Notation "x <- m ;; k" := (bind m (fun x => k))
  (at level 61, m at next level, right associativity).
Notation "m ;;; k" := (bind m (fun _ => k))
  (at level 61, right associativity).

(** [time.time()]. *)
Definition time_time : M float :=
  fun w =>
    (inr (clock w (clock_reads w)),
     mkWorld (clock w) (S (clock_reads w)) (log w)).

Definition emit (r : LogRecord) : M unit :=
  fun w => (inr tt, mkWorld (clock w) (clock_reads w) (log w ++ [r])).

(** [logger.info(msg, *args)]. *)
Definition logger_info (msg : string) (args : list LogArg) : M unit :=
  emit (mkLogRecord INFO msg args None).

(** [logger.exception(msg, *args)] while [exc] is being handled: an ERROR
    record with the failure attached. *)
Definition logger_exception (msg : string) (args : list LogArg)
  (exc : Exception) : M unit :=
  emit (mkLogRecord ERROR msg args (Some exc)).

(** The rest of the chain as a stage sees it ([call_next]), and a stage. *)
Definition Handler : Type := Request.t -> M Response.t.
Definition Middleware : Type := Request.t -> Handler -> M Response.t.

(** ** [SecurityHeadersMiddleware.dispatch] (lines 22-31) *)
Definition SecurityHeadersMiddleware_dispatch : Middleware :=
  fun request call_next =>
    response <- call_next request ;;
    let h := Response.headers response in
    let h := Headers.setdefault h "X-Content-Type-Options" "nosniff" in
    let h := Headers.setdefault h "X-Frame-Options" "DENY" in
    let h := Headers.setdefault h "X-XSS-Protection" "1; mode=block" in
    let h := Headers.setdefault h "Referrer-Policy" "no-referrer" in
    let h := Headers.setdefault h "Permissions-Policy" "geolocation=()" in
    ret (Response.with_headers response h).

(** ** [RequestLoggingMiddleware.dispatch] (lines 36-53) *)

(** [int((now - start) * 1000)]. *)
Definition duration (start now : float) : Z :=
  int_of_float (float_mul (float_sub now start) (float_of_int 1000)).

(** [request.client.host if request.client else "unknown"]. *)
Definition client_host (request : Request.t) : string :=
  match Request.client request with
  | Some (host, _) => host
  | None => "unknown"
  end.

Definition RequestLoggingMiddleware_dispatch : Middleware :=
  fun request call_next =>
    start <- time_time ;;
    let method := Request.method request in
    let path := Request.path request in
    let client := client_host request in
    try_except
      (response <- call_next request ;;
       now <- time_time ;;
       let duration_ms := duration start now in
       logger_info "%s %s - %s - %sms - %s"
         [ArgStr method; ArgStr path; ArgStr client; ArgInt duration_ms;
          ArgInt (Response.status_code response)] ;;;
       ret response)
      (fun exc =>
       now <- time_time ;;
       let duration_ms := duration start now in
       logger_exception "Unhandled error for %s %s - %s - %sms"
         [ArgStr method; ArgStr path; ArgStr client; ArgInt duration_ms]
         exc ;;;
       raise exc).

(** ** [JSONSizeLimitMiddleware.dispatch] (lines 62-84) *)

(** The 413 body of lines 72-78. *)
Definition payload_too_large (max_bytes : Z) : json :=
  JDict [("error",
          JDict [("message", JStr "Payload too large");
                 ("code", JStr "PAYLOAD_TOO_LARGE");
                 ("details", JDict [("limit_bytes", JInt max_bytes)])])].

Definition JSONSizeLimitMiddleware_dispatch (max_bytes : Z) : Middleware :=
  fun request call_next =>
    if str_in (Request.method request) ["POST"; "PUT"; "PATCH"] then
      let content_type :=
        Headers.get (Request.headers request) "content-type" "" in
      if contains "application/json" content_type then
        match Request.body request with
        | (inl exc, _) => raise exc
        | (inr body, request) =>
            if (len body >? max_bytes)%Z then
              ret (JSONResponse 413 (payload_too_large max_bytes))
            else
              (* request._receive = receive_with_body *)
              let request :=
                Request.set_receive request (receive_with_body body) in
              call_next request
        end
      else call_next request
    else call_next request.

(** The default of [__init__]: [1 * 1024 * 1024]. *)
Definition default_max_bytes : Z := 1 * 1024 * 1024.

(** ** [create_app] (lines 99-158) *)

(** Modelled from the spec: how the framework nests the entries of
    [middleware=] is not in this repository.  The spec: "execute stages in
    a fixed order, each stage wrapping all stages after it", the last one
    wrapping the terminal handler. *)
Definition wrap (m : Middleware) (app : Handler) : Handler :=
  fun request => m request app.

Definition build_stack (ms : list Middleware) (app : Handler) : Handler :=
  fold_right wrap app ms.

(** The three entries of [middlewares] that are classes of this file, in
    the order of lines 117-119. *)
Definition local_middlewares : list Middleware :=
  [SecurityHeadersMiddleware_dispatch;
   RequestLoggingMiddleware_dispatch;
   JSONSizeLimitMiddleware_dispatch (1 * 1024 * 1024)].

(** [middlewares] of lines 108-122; the two framework classes configured at
    lines 109-116 are taken as given. *)
Definition middlewares (CORSMiddleware GZipMiddleware : Middleware)
  : list Middleware :=
  CORSMiddleware :: GZipMiddleware :: local_middlewares.

(** Lines 154-156. *)
Definition health_check : M json :=
  ret (JDict [("message", JStr "Healthy")]).

(** Modelled from the spec: routing is the framework's.  The spec: "health
    check, method GET, path /, returns {"message": "Healthy"} with status
    200"; so [@app.get("/")] sends a GET for ["/"] to [health_check] and
    answers with its value as JSON and status 200.  What the framework
    answers to any other request is [fallback]. *)
Definition router (fallback : Handler) : Handler :=
  fun request =>
    if String.eqb (Request.method request) "GET"
       && String.eqb (Request.path request) "/"
    then content <- health_check ;; ret (JSONResponse 200 content)
    else fallback request.

(** A [call_next] that leaves a trace: it logs one record and answers 200. *)
Definition traced_handler : Handler :=
  fun _ =>
    logger_info "terminal handler invoked" [] ;;;
    ret (JSONResponse 200 JNone).

(** ** Vocabulary of the statements *)

(** "A details mapping was supplied": the argument is not [None]. *)
Definition supplied (details : option dict) : bool :=
  match details with
  | Some _ => true
  | None => false
  end.

(** The five hardening headers, as the specification lists them. *)
Definition security_headers : list (string * string) :=
  [("X-Content-Type-Options", "nosniff");
   ("X-Frame-Options", "DENY");
   ("X-XSS-Protection", "1; mode=block");
   ("Referrer-Policy", "no-referrer");
   ("Permissions-Policy", "geolocation=()")].

(** [setdefault] applied to a list of defaults, first to last. *)
Definition setdefaults (h : Headers.t) (defaults : list (string * string))
  : Headers.t :=
  fold_left (fun acc kv => Headers.setdefault acc (fst kv) (snd kv)) defaults h.

(** The entries of [defaults] whose name is not in [h], with the name as it
    is stored. *)
Definition missing (h : Headers.t) (defaults : list (string * string))
  : Headers.t :=
  map (fun kv => (lower (fst kv), snd kv))
      (filter (fun kv => negb (Headers.mem h (fst kv))) defaults).

(** The INFO record of lines 45-46 and the ERROR record of lines 50-51,
    for a request, an elapsed time and a status code or a failure. *)
Definition access_record (request : Request.t) (duration_ms status : Z)
  : LogRecord :=
  mkLogRecord INFO "%s %s - %s - %sms - %s"
    [ArgStr (Request.method request); ArgStr (Request.path request);
     ArgStr (client_host request); ArgInt duration_ms; ArgInt status]
    None.

Definition failure_record (request : Request.t) (duration_ms : Z)
  (exc : Exception) : LogRecord :=
  mkLogRecord ERROR "Unhandled error for %s %s - %s - %sms"
    [ArgStr (Request.method request); ArgStr (Request.path request);
     ArgStr (client_host request); ArgInt duration_ms]
    (Some exc).

(** The world after one more [time.time()] call and one more log record. *)
Definition logged (w : World) (r : LogRecord) : World :=
  mkWorld (clock w) (S (clock_reads w)) (log w ++ [r]).

(** [w'] has every log record of [w], in the same order, at its start. *)
Definition log_grows (w w' : World) : Prop :=
  exists added, log w' = log w ++ added.

(** A handler that only ever appends to the log. *)
Definition append_only (h : Handler) : Prop :=
  forall request w, log_grows w (snd (h request w)).

(** The chain of lines 117-119 with the limit left open. *)
Definition local_chain (max_bytes : Z) (app : Handler) : Handler :=
  build_stack
    [SecurityHeadersMiddleware_dispatch;
     RequestLoggingMiddleware_dispatch;
     JSONSizeLimitMiddleware_dispatch max_bytes] app.

End Pipeline.

(** * Concrete inputs

    A clock that counts in whole seconds: timestamps are integers and the
    four operations are the integer ones. *)
Definition integer_clock : PyFloat := {|
  float := Z;
  float_sub := Z.sub;
  float_mul := Z.mul;
  float_of_int := fun z => z;
  int_of_float := fun z => z
|}.

(** No clock reading taken and nothing logged yet; the [n]-th reading will
    be [n] seconds. *)
Definition tick_world : @World integer_clock :=
  @mkWorld integer_clock (fun n => Z.of_nat n) 0%nat [].

(** The eleven bytes of [{"a":12345}]. *)
Definition eleven_bytes : bytes :=
  [x7b; x22; x61; x22; x3a; x31; x32; x33; x34; x35; x7d].

(** A POST with a JSON content type whose body arrives in two chunks. *)
Definition post_request : Request.t :=
  Request.mk "POST" "/items"
    [("host", "localhost"); ("content-type", "application/json; charset=utf-8")]
    (Some ("127.0.0.1", 50432%Z))
    (asgi_receive
       [http_request [x7b; x22; x61; x22; x3a] true;
        http_request [x31; x32; x33; x34; x35; x7d] false])
    None false.

(** [post_request] after [body()] has been awaited on it. *)
Definition post_request_read : Request.t :=
  Request.mk "POST" "/items"
    [("host", "localhost"); ("content-type", "application/json; charset=utf-8")]
    (Some ("127.0.0.1", 50432%Z))
    (asgi_receive []) (Some eleven_bytes) true.

Definition get_root : Request.t :=
  Request.mk "GET" "/" [("host", "localhost")] None (asgi_receive []) None false.

Definition division_by_zero : Exception :=
  OtherException "ZeroDivisionError" "division by zero"
    "Traceback (most recent call last): File main.py, line 1".

(** A handler that answers 200 and already sets one hardening header. *)
Definition framed_handler : @Handler integer_clock :=
  fun _ w =>
    (inr (Response.mk 200 [("x-frame-options", "SAMEORIGIN")] (RawBytes [])), w).

Definition failing_handler : @Handler integer_clock :=
  fun _ w => (inl division_by_zero, w).

(** The request object [post_request] has become when the size-limit stage
    hands it on: body cached, [_receive] replaced by the closure. *)
Definition post_request_handed_on : Request.t :=
  Request.set_receive post_request_read (receive_with_body eleven_bytes).

(** What a field validator that raises [ValueError] leaves in
    [exc.errors()]: the error dict carries the exception object itself
    under [ctx]. *)
Definition value_error_report : list pyobj :=
  [PDict [("type", PStr "value_error");
          ("loc", PList [PStr "body"; PStr "name"]);
          ("msg", PStr "Value error, name must not be blank");
          ("input", PStr " ");
          ("ctx", PDict [("error",
                          PObject "ValueError" "name must not be blank")])]].

(** A report with nothing but strings in it. *)
Definition missing_field_report : list pyobj :=
  [PDict [("type", PStr "missing");
          ("loc", PList [PStr "body"; PStr "name"]);
          ("msg", PStr "Field required")]].

(** A POST that names no content type. *)
Definition untyped_post : Request.t :=
  Request.mk "POST" "/upload" [("host", "localhost")] None
    (asgi_receive [http_request eleven_bytes false]) None false.

(** A JSON POST whose client goes away after the first chunk. *)
Definition truncated_post : Request.t :=
  Request.mk "POST" "/items"
    [("content-type", "application/json")] None
    (asgi_receive [http_request [x7b; x22] true]) None false.

(** A JSON POST with an empty body. *)
Definition empty_post : Request.t :=
  Request.mk "POST" "/items"
    [("content-type", "application/json")] None
    (asgi_receive [http_request [] false]) None false.

(** * Properties *)

Section Properties.

Context {F : PyFloat}.

(** ** The error envelope *)

Lemma json_error_response_body status_code message code details :
  Response.body (json_error_response status_code message code details) =
  JSONContent
    (JDict [("error",
             JDict ([("message", JStr message); ("code", JStr code)] ++
                    match details with
                    | Some (kv :: d) => [("details", JDict (kv :: d))]
                    | _ => []
                    end))]).
Proof.
  destruct details as [[|kv d]|]; reflexivity.
Qed.

(** X12.  Every body [json_error_response] builds, whatever it is called
    with, has exactly the envelope shape: one top-level key [error], under
    it [message] and [code] as strings holding the arguments, then
    [details] as a mapping or nothing else.  The [details] key is present
    exactly when the mapping passed is not empty, and then it holds that
    mapping; an empty mapping is left out like [None]. *)
Theorem json_error_response_envelope status_code message code details :
  let r := json_error_response status_code message code details in
  Response.status_code r = status_code /\
  is_error_envelope (Response.body r) = true /\
  envelope_field (Response.body r) "message" = Some (JStr message) /\
  envelope_field (Response.body r) "code" = Some (JStr code) /\
  (has_details (Response.body r) = true <->
   exists d, details = Some d /\ d <> []) /\
  envelope_field (Response.body r) "details" =
    (if truthy details then option_map JDict details else None).
Proof.
  cbv zeta. rewrite json_error_response_body.
  destruct details as [[|kv d]|]; cbn.
  - repeat split; try discriminate.
    intros (d & Hd & Hne). injection Hd as <-. now elim Hne.
  - repeat split; try reflexivity.
    intros _. exists (kv :: d). split; [reflexivity | discriminate].
  - repeat split; try discriminate.
    intros (d & Hd & _). discriminate.
Qed.

(** The edge of line 94 at one call: an empty mapping is passed, and the
    body has no [details] key.  No handler of [create_app] makes such a
    call. *)
Lemma json_error_response_drops_empty_details :
  ~ (has_details
       (Response.body
          (json_error_response 400 "Bad request" "BAD_REQUEST" (Some []))) = true
     <-> supplied (Some []) = true).
Proof.
  cbn. intros [_ H]. specialize (H eq_refl). discriminate.
Qed.


(** Every JSON value, seen as a Python value, encodes to itself. *)
Lemma to_json_of_json : forall j, to_json (of_json j) = Some j.
Proof.
  fix IH 1. intros [ | b | n | s | items | items]; cbn [of_json to_json];
    try reflexivity.
  - replace ((fix each (l : list pyobj) : option (list json) := _)
               (map of_json items)) with (Some items); [reflexivity|].
    induction items as [|x rest IHrest]; [reflexivity|].
    cbn [map]. rewrite (IH x). now rewrite <- IHrest.
  - replace ((fix each (l : list (string * pyobj)) : option dict := _)
               (map (fun kv => (fst kv, of_json (snd kv))) items))
      with (Some items); [reflexivity|].
    induction items as [|[k x] rest IHrest]; [reflexivity|].
    cbn [map fst snd]. rewrite (IH x). now rewrite <- IHrest.
Qed.




(** ** The error translator *)

(** C3.  A failure that is not a structured validation failure is answered
    with status 500 and the envelope with code [INTERNAL_SERVER_ERROR], the
    fixed message ["Internal server error"] and no [details]; the response
    is the same for every request and every such failure, so nothing of the
    failure (its class, text or stack trace) is in it. *)
Theorem unhandled_failure_gives_generic_500 request exc :
  is_validation_error exc = false ->
  let r := error_translator request exc in
  Response.status_code r = 500%Z /\
  Response.body r =
    JSONContent
      (JDict [("error",
               JDict [("message", JStr "Internal server error");
                      ("code", JStr "INTERNAL_SERVER_ERROR")])]) /\
  is_error_envelope (Response.body r) = true /\
  has_details (Response.body r) = false /\
  (forall request' exc',
     is_validation_error exc' = false -> error_translator request' exc' = r) /\
  (forall request' exc', unhandled_exception_handler request' exc' = r).
Proof.
  intros Hexc. unfold error_translator. rewrite Hexc. cbv zeta.
  repeat split.
  intros request' exc' Hexc'. now rewrite Hexc'.
Qed.

(** A validation failure whose error list cannot be encoded is answered
    like any other failure. *)
Lemma unencodable_validation_failure request exc :
  is_validation_error exc = true ->
  to_json (PList (errors exc)) = None ->
  validation_exception_handler request exc = inl not_serializable /\
  error_translator request exc =
  json_error_response 500 "Internal server error" "INTERNAL_SERVER_ERROR" None.
Proof.
  intros Hval Hnone. unfold error_translator, validation_exception_handler.
  rewrite Hval, Hnone. now split.
Qed.

(** C4.  The code at a structured validation failure whose field errors
    hold an exception object: a field validator raised [ValueError], and
    the error dict carries it under [ctx].  Line 141 passes
    [exc.errors()] on unencoded, [JSONResponse] at line 96 cannot render
    it, the handler raises [TypeError], and the client is answered 500 with
    code [INTERNAL_SERVER_ERROR] and no [details], where the claim has 422,
    [VALIDATION_ERROR] and the field errors. *)
Theorem validation_failure_with_exception_object_gives_500 :
  let exc := RequestValidationError value_error_report
               "1 validation error" "" in
  let r := error_translator post_request exc in
  is_validation_error exc = true /\
  validation_exception_handler post_request exc = inl not_serializable /\
  Response.status_code r = 500%Z /\
  envelope_field (Response.body r) "code" =
    Some (JStr "INTERNAL_SERVER_ERROR") /\
  has_details (Response.body r) = false.
Proof.
  cbv zeta. repeat split.
Qed.

(** X13.  A structured validation failure whose field errors [json.dumps]
    can encode is answered with status 422 and the envelope with code
    [VALIDATION_ERROR] whose [details] is [{"errors": exc.errors()}]; the
    response depends on the failure through [exc.errors()] only, not
    through its text or stack trace. *)
Theorem validation_failure_gives_422 request errs es text traceback :
  to_json (PList errs) = Some (JList es) ->
  let r := error_translator request
             (RequestValidationError errs text traceback) in
  validation_exception_handler request
    (RequestValidationError errs text traceback) = inr r /\
  Response.status_code r = 422%Z /\
  is_error_envelope (Response.body r) = true /\
  envelope_field (Response.body r) "message" = Some (JStr "Validation error") /\
  envelope_field (Response.body r) "code" = Some (JStr "VALIDATION_ERROR") /\
  envelope_field (Response.body r) "details" =
    Some (JDict [("errors", JList es)]) /\
  keys (match envelope_error (Response.body r) with
        | Some inner => inner
        | None => []
        end) = ["message"; "code"; "details"] /\
  (forall request' text' traceback',
     error_translator request'
       (RequestValidationError errs text' traceback') = r).
Proof.
  intros Henc. cbv zeta.
  unfold error_translator, validation_exception_handler.
  cbn [is_validation_error errors]. rewrite Henc. repeat split.
Qed.

(** ** Strings and membership tests *)

Lemma startswith_iff needle hay :
  startswith needle hay = true <->
  exists post, hay = String.append needle post.
Proof.
  revert hay. induction needle as [|a n IH]; intros hay; cbn.
  - split; [intros _; now exists hay | reflexivity].
  - destruct hay as [|b h].
    + split; [discriminate | intros (post & H); discriminate].
    + rewrite andb_true_iff, Ascii.eqb_eq, IH. split.
      * intros (-> & post & ->). now exists post.
      * intros (post & H). injection H as -> ->. split; [reflexivity|].
        now exists post.
Qed.

(** [contains] is Python's substring test: [needle] occurs in [hay] exactly
    when [hay] is some prefix, then [needle], then some suffix. *)
Lemma contains_iff needle hay :
  contains needle hay = true <->
  exists pre post, hay = String.append pre (String.append needle post).
Proof.
  induction hay as [|b h IH].
  - cbn [contains]. rewrite orb_false_r, startswith_iff. split.
    + intros (post & H). now exists EmptyString, post.
    + intros (pre & post & H). destruct pre as [|c pre]; [|discriminate].
      now exists post.
  - cbn [contains]. rewrite orb_true_iff, startswith_iff, IH. split.
    + intros [(post & H) | (pre & post & H)].
      * now exists EmptyString, post.
      * exists (String b pre), post. cbn. now rewrite H.
    + intros (pre & post & H). destruct pre as [|c pre].
      * left. now exists post.
      * right. cbn in H. injection H as -> ->. now exists pre, post.
Qed.

Lemma str_in_iff x xs : str_in x xs = true <-> In x xs.
Proof.
  unfold str_in. rewrite existsb_exists. split.
  - intros (y & Hy & Heq). apply String.eqb_eq in Heq. now subst.
  - intros H. exists x. split; [assumption | apply String.eqb_refl].
Qed.

(** ** Reading the request body *)

(** The bound of [receive_bound] is enough for the server's callable: the
    loop ends within one call per pending message plus one. *)
Lemma stream_asgi_terminates pending :
  forall fuel chunks,
    (List.length pending < fuel)%nat ->
    Request.stream fuel (asgi_receive pending) chunks <> None.
Proof.
  induction pending as [|m rest IH]; intros fuel chunks Hlt;
    destruct fuel as [|fuel]; try (cbn in Hlt; lia); cbn.
  - discriminate.
  - destruct m as [body more|]; [|discriminate].
    destruct more; [|discriminate].
    apply IH. cbn in Hlt. lia.
Qed.

Lemma stream_terminates rcv chunks :
  Request.stream (receive_bound rcv) rcv chunks <> None.
Proof.
  destruct rcv as [pending|body].
  - apply stream_asgi_terminates. cbn. lia.
  - cbn. discriminate.
Qed.

(** More fuel does not change what the loop returns. *)
Lemma stream_fuel_monotone fuel :
  forall rcv chunks res extra,
    Request.stream fuel rcv chunks = Some res ->
    Request.stream (fuel + extra) rcv chunks = Some res.
Proof.
  induction fuel as [|fuel IH]; intros rcv chunks res extra H;
    [discriminate|].
  cbn in *. destruct (call rcv) as [[body more|] rcv']; [|assumption].
  destruct more; [now apply IH | assumption].
Qed.

(** Reading through the closure of lines 81-82 gives its body and leaves
    the closure as it was. *)
Lemma stream_receive_with_body body :
  Request.stream 1 (receive_with_body body) [] =
  Some (inr body, receive_with_body body).
Proof. reflexivity. Qed.

(** A successful [request.body()] leaves the body cached on the request and
    does not touch method, path, headers or client. *)
Lemma body_ok_cached r b r' :
  Request.body r = (inr b, r') ->
  Request._body r' = Some b /\
  Request.method r' = Request.method r /\
  Request.path r' = Request.path r /\
  Request.headers r' = Request.headers r /\
  Request.client r' = Request.client r.
Proof.
  unfold Request.body. destruct (Request._body r) as [b0|] eqn:Hb.
  - intros H. injection H as <- <-. now repeat split.
  - destruct (Request._stream_consumed r); [discriminate|].
    destruct (Request.stream _ _ _) as [[[e|b1] rcv']|]; try discriminate.
    intros H. injection H as <- <-. now repeat split.
Qed.

(** [request.body()] never takes the out-of-fuel branch. *)
Lemma body_total r :
  fst (Request.body r) <> inl (RuntimeError "unreachable").
Proof.
  unfold Request.body. destruct (Request._body r); [discriminate|].
  destruct (Request._stream_consumed r); [discriminate|].
  destruct (Request.stream _ _ _) as [[[e|b1] rcv']|] eqn:Hs; cbn.
  - intros H. injection H as ->.
    assert (forall fuel rcv chunks t rcv2,
               Request.stream fuel rcv chunks <>
               Some (inl (RuntimeError t), rcv2)) as Hne.
    { induction fuel as [|fuel IH]; intros rcv chunks t rcv2; cbn;
        [discriminate|].
      destruct (call rcv) as [[body more|] rcv0]; [|discriminate].
      destruct more; [apply IH | discriminate]. }
    now apply Hne in Hs.
  - discriminate.
  - now apply stream_terminates in Hs.
Qed.

(** A request whose body is cached answers [body()] with it, unchanged. *)
Lemma body_cached r b :
  Request._body r = Some b -> Request.body r = (inr b, r).
Proof. unfold Request.body. now intros ->. Qed.

(** A fresh request object over the closure reads the closure's body. *)
Lemma body_over_receive_with_body r b :
  Request.body (Request.over r (receive_with_body b)) =
  (inr b,
   Request.mk (Request.method r) (Request.path r) (Request.headers r)
              (Request.client r) (receive_with_body b) (Some b) true).
Proof. reflexivity. Qed.

Lemma receive_n_receive_with_body b n :
  receive_n n (receive_with_body b) =
  (repeat (http_request b false) n, receive_with_body b).
Proof.
  induction n as [|n IH]; [reflexivity|].
  cbn. rewrite IH. reflexivity.
Qed.

Lemma read_n_receive_with_body r b n :
  read_n n r (receive_with_body b) =
  (repeat (inr b) n, receive_with_body b).
Proof.
  induction n as [|n IH]; [reflexivity|].
  cbn [read_n]. rewrite body_over_receive_with_body. cbn.
  rewrite IH. reflexivity.
Qed.

(** What the server's callable delivers for a body sent in chunks: the
    read returns the chunks joined, in order. *)
Lemma stream_joins_chunks chunks :
  forall last rest acc,
    Request.stream (S (List.length chunks))
      (asgi_receive
         (map (fun c => http_request c true) chunks ++
          http_request last false :: rest)) acc =
    Some (inr (acc ++ List.concat chunks ++ last), asgi_receive rest).
Proof.
  induction chunks as [|c chunks IH]; intros last rest acc.
  - reflexivity.
  - change (Request.stream (S (List.length (c :: chunks))) _ acc)
      with (Request.stream (S (List.length chunks))
              (asgi_receive
                 (map (fun c => http_request c true) chunks ++
                  http_request last false :: rest)) (acc ++ c)).
    rewrite IH. cbn [List.concat]. now rewrite <- !app_assoc.
Qed.

(** ** The size-limit stage *)

Lemma default_limit : default_max_bytes = 1048576%Z.
Proof. reflexivity. Qed.

(** C1.  For a POST, PUT or PATCH request whose content-type contains
    [application/json] and whose body is longer than the limit, the stage
    answers by itself: status 413, the envelope with code
    [PAYLOAD_TOO_LARGE] and [details = {"limit_bytes": max_bytes}].  The
    answer and the world after it are the same whatever [call_next] is, and
    the world is the one the stage started in: the rest of the chain is not
    run. *)
Theorem size_limit_rejects_large_body
  max_bytes request body request1 (call_next : Handler) (w : World) :
  In (Request.method request) ["POST"; "PUT"; "PATCH"] ->
  contains "application/json"
    (Headers.get (Request.headers request) "content-type" "") = true ->
  Request.body request = (inr body, request1) ->
  (max_bytes < len body)%Z ->
  let r := JSONResponse 413 (payload_too_large max_bytes) in
  JSONSizeLimitMiddleware_dispatch max_bytes request call_next w = (inr r, w) /\
  Response.status_code r = 413%Z /\
  is_error_envelope (Response.body r) = true /\
  envelope_field (Response.body r) "code" = Some (JStr "PAYLOAD_TOO_LARGE") /\
  envelope_field (Response.body r) "details" =
    Some (JDict [("limit_bytes", JInt max_bytes)]).
Proof.
  intros Hmethod Htype Hbody Hlen. cbv zeta.
  repeat split.
  unfold JSONSizeLimitMiddleware_dispatch.
  apply str_in_iff in Hmethod. rewrite Hmethod, Htype, Hbody.
  apply Z.gtb_lt in Hlen. now rewrite Hlen.
Qed.

(** The request the stage hands on when the body is within the limit. *)
Lemma size_limit_delegates
  max_bytes request body request1 (call_next : Handler) (w : World) :
  In (Request.method request) ["POST"; "PUT"; "PATCH"] ->
  contains "application/json"
    (Headers.get (Request.headers request) "content-type" "") = true ->
  Request.body request = (inr body, request1) ->
  (len body <= max_bytes)%Z ->
  JSONSizeLimitMiddleware_dispatch max_bytes request call_next w =
  call_next (Request.set_receive request1 (receive_with_body body)) w.
Proof.
  intros Hmethod Htype Hbody Hlen.
  unfold JSONSizeLimitMiddleware_dispatch.
  apply str_in_iff in Hmethod. rewrite Hmethod, Htype, Hbody.
  destruct (Z.gtb_spec (len body) max_bytes) as [Hgt|_]; [lia | reflexivity].
Qed.

(** C2.  For a POST, PUT or PATCH request whose content-type contains
    [application/json] and whose body is within the limit, the stage's
    result is exactly what the rest of the chain returns for the request it
    is handed, and that request has the method, path, headers and client of
    the original and yields the body the stage read, byte for byte: both
    from the request object itself and through its [receive] callable. *)
Theorem size_limit_passes_body_unchanged
  max_bytes request body request1 :
  In (Request.method request) ["POST"; "PUT"; "PATCH"] ->
  contains "application/json"
    (Headers.get (Request.headers request) "content-type" "") = true ->
  Request.body request = (inr body, request1) ->
  (len body <= max_bytes)%Z ->
  exists request2,
    (forall (call_next : Handler) (w : World),
        JSONSizeLimitMiddleware_dispatch max_bytes request call_next w =
        call_next request2 w) /\
    Request.method request2 = Request.method request /\
    Request.path request2 = Request.path request /\
    Request.headers request2 = Request.headers request /\
    Request.client request2 = Request.client request /\
    fst (Request.body request2) = inr body /\
    fst (Request.body
           (Request.over request2 (Request._receive request2))) = inr body.
Proof.
  intros Hmethod Htype Hbody Hlen.
  exists (Request.set_receive request1 (receive_with_body body)).
  destruct (body_ok_cached _ _ _ Hbody) as (Hc & Hm & Hp & Hh & Hcl).
  split; [intros call_next w; now apply size_limit_delegates|].
  repeat split; try assumption.
  rewrite (body_cached _ body); [reflexivity | exact Hc].
Qed.

(** C10 (as amended).  After the stage has run on such a request, the
    [receive] callable it has installed on the request answers every call
    with the whole body and [more_body] false, so any number of successive
    body reads made through the request object handed on, whether on that
    object or on fresh request objects over its [receive], each return the
    same bytes the stage read.  Reads a downstream application makes
    through the framework's own wrapper are not covered. *)
Theorem size_limit_body_reads_repeatable
  max_bytes request body request1 :
  In (Request.method request) ["POST"; "PUT"; "PATCH"] ->
  contains "application/json"
    (Headers.get (Request.headers request) "content-type" "") = true ->
  Request.body request = (inr body, request1) ->
  (len body <= max_bytes)%Z ->
  exists request2,
    (forall (call_next : Handler) (w : World),
        JSONSizeLimitMiddleware_dispatch max_bytes request call_next w =
        call_next request2 w) /\
    Request._receive request2 = receive_with_body body /\
    (forall n,
        receive_n n (Request._receive request2) =
        (repeat (http_request body false) n, Request._receive request2)) /\
    (forall n,
        read_n n request2 (Request._receive request2) =
        (repeat (inr body) n, Request._receive request2)) /\
    Request.body request2 = (inr body, request2).
Proof.
  intros Hmethod Htype Hbody Hlen.
  exists (Request.set_receive request1 (receive_with_body body)).
  destruct (body_ok_cached _ _ _ Hbody) as (Hc & _).
  split; [|split; [reflexivity|split; [|split]]].
  - intros call_next w. now apply size_limit_delegates.
  - intros n. apply receive_n_receive_with_body.
  - intros n. apply read_n_receive_with_body.
  - apply body_cached. exact Hc.
Qed.

(** The first body read a downstream application makes through the
    framework's wrapper is answered with the cached body, whatever the
    request's own [receive] is. *)
Lemma first_downstream_read r body fuel :
  Request._body r = Some body ->
  downstream_body (S fuel) (downstream_of r) [] =
  Some (inr body, mkCachedRequest r false false true).
Proof.
  intros Hbody. cbn [downstream_body]. unfold wrapped_receive, downstream_of.
  cbn [_wrapped_rcv_disconnected _wrapped_rcv_consumed base _is_disconnected].
  now rewrite Hbody.
Qed.

(** Once the wrapper has handed out the body, the next downstream call
    asks the request's own [receive] for the disconnect notice.  The
    closure of lines 81-82 answers with the body again, and the wrapper
    raises. *)
Lemma later_downstream_read_raises r body fuel :
  Request._receive r = receive_with_body body ->
  downstream_body (S fuel) (mkCachedRequest r false false true) [] =
  Some (inl (RuntimeError "Unexpected message received: http.request"),
        mkCachedRequest (Request.set_receive r (receive_with_body body))
          false false true).
Proof.
  intros Hrcv. cbn [downstream_body]. unfold wrapped_receive.
  cbn [_wrapped_rcv_disconnected _wrapped_rcv_consumed base _is_disconnected].
  rewrite Hrcv. reflexivity.
Qed.

(** Outside its scope the stage only delegates: any other method, or a
    content-type without [application/json], goes to [call_next] with the
    request untouched. *)
Lemma size_limit_ignores_other_requests
  max_bytes request (call_next : Handler) :
  str_in (Request.method request) ["POST"; "PUT"; "PATCH"] = false \/
  contains "application/json"
    (Headers.get (Request.headers request) "content-type" "") = false ->
  JSONSizeLimitMiddleware_dispatch max_bytes request call_next =
  call_next request.
Proof.
  unfold JSONSizeLimitMiddleware_dispatch.
  intros [-> | H]; [reflexivity|].
  rewrite H. now destruct (str_in _ _).
Qed.

(** ** Header lists *)

Lemma mem_lookup h key :
  Headers.mem h key = match Headers.lookup h key with
                      | Some _ => true
                      | None => false
                      end.
Proof.
  induction h as [|[k v] h IH]; [reflexivity|].
  cbn. destruct (String.eqb k (lower key)); [reflexivity | exact IH].
Qed.

Lemma lookup_app h1 h2 key :
  Headers.lookup (h1 ++ h2) key =
  match Headers.lookup h1 key with
  | Some v => Some v
  | None => Headers.lookup h2 key
  end.
Proof.
  induction h1 as [|[k v] h1 IH]; [reflexivity|].
  cbn. destruct (String.eqb k (lower key)); [reflexivity | exact IH].
Qed.

Lemma mem_app h1 h2 key :
  Headers.mem (h1 ++ h2) key = Headers.mem h1 key || Headers.mem h2 key.
Proof.
  rewrite !mem_lookup, lookup_app.
  now destruct (Headers.lookup h1 key).
Qed.

(** On a header list whose names are stored in lower case, as the
    framework stores them, [key in headers] is the case-insensitive test:
    some entry has the name of [key] up to letter case. *)
Lemma mem_case_insensitive h key :
  Forall (fun kv => fst kv = lower (fst kv)) h ->
  (Headers.mem h key = true <->
   exists name value, In (name, value) h /\ lower name = lower key).
Proof.
  induction h as [|[k v] h IH]; intros Hlow.
  - cbn. split; [discriminate | intros (n & x & [] & _)].
  - inversion Hlow as [|kv l Hk Hrest]; subst. cbn [fst] in Hk.
    cbn [Headers.mem]. rewrite orb_true_iff, String.eqb_eq, (IH Hrest).
    split.
    + intros [Heq | (n & x & Hin & Hn)].
      * exists k, v. split; [now left | now rewrite <- Hk].
      * exists n, x. split; [now right | assumption].
    + intros (n & x & [Heq | Hin] & Hn).
      * injection Heq as -> ->. left. now rewrite Hk.
      * right. now exists n, x.
Qed.

(** [setdefault] leaves the list alone when the name is there and appends
    one entry at the end when it is not. *)
Lemma setdefault_spec h key value :
  Headers.setdefault h key value =
  if Headers.mem h key then h else h ++ [(lower key, value)].
Proof.
  induction h as [|[k v] h IH]; [reflexivity|].
  cbn. destruct (String.eqb k (lower key)); [reflexivity|].
  cbn. rewrite IH. now destruct (Headers.mem h key).
Qed.

(** A run of [setdefault] calls over distinct names appends, in order, the
    defaults whose name was not in the list to begin with. *)
Lemma setdefaults_spec defaults :
  NoDup (map (fun kv => lower (fst kv)) defaults) ->
  forall h, setdefaults h defaults = h ++ missing h defaults.
Proof.
  unfold setdefaults, missing.
  induction defaults as [|[k v] defaults IH]; intros Hnd h; cbn.
  - now rewrite app_nil_r.
  - inversion Hnd as [|x l Hnotin Hnd']; subst.
    rewrite (IH Hnd'), setdefault_spec. cbn [fst snd].
    destruct (Headers.mem h k) eqn:Hmem; cbn; [reflexivity|].
    rewrite <- app_assoc. cbn. do 3 f_equal.
    apply filter_ext_in. intros [k' v'] Hin. cbn [fst].
    rewrite mem_app. cbn. rewrite orb_false_r.
    destruct (String.eqb_spec (lower k) (lower k')) as [Heq|_];
      [|now rewrite orb_false_r].
    exfalso. apply Hnotin. cbn in Heq. rewrite Heq.
    apply (in_map (fun kv => lower (fst kv)) defaults (k', v') Hin).
Qed.

Lemma security_headers_distinct :
  NoDup (map (fun kv => lower (fst kv)) security_headers).
Proof.
  cbn. repeat constructor; cbn; intuition discriminate.
Qed.

(** Names that are not among the defaults are not among the appended
    entries. *)
Lemma lookup_missing_other h defaults key :
  ~ In (lower key) (map (fun kv => lower (fst kv)) defaults) ->
  Headers.lookup (missing h defaults) key = None.
Proof.
  unfold missing. induction defaults as [|[k v] defaults IH]; intros Hnin;
    [reflexivity|].
  cbn in Hnin. cbn [filter fst].
  assert (Headers.lookup
            (map (fun kv => (lower (fst kv), snd kv))
                 (filter (fun kv => negb (Headers.mem h (fst kv))) defaults))
            key = None) as Hrest by (apply IH; tauto).
  destruct (negb (Headers.mem h k)); [|exact Hrest].
  cbn. destruct (String.eqb_spec (lower k) (lower key)) as [Heq|_];
    [exfalso; apply Hnin; now left | exact Hrest].
Qed.

(** A default whose name is absent from [h] is found, with its value, among
    the appended entries. *)
Lemma lookup_missing_default h defaults :
  NoDup (map (fun kv => lower (fst kv)) defaults) ->
  forall k v,
    In (k, v) defaults ->
    Headers.mem h k = false ->
    Headers.lookup (missing h defaults) k = Some v.
Proof.
  unfold missing. induction defaults as [|[k0 v0] defaults IH];
    intros Hnd k v Hin Hmem; [contradiction|].
  inversion Hnd as [|x l Hnotin Hnd']; subst.
  cbn [filter fst]. destruct Hin as [Heq | Hin].
  - injection Heq as -> ->. rewrite Hmem. cbn.
    now rewrite String.eqb_refl.
  - assert (lower k0 <> lower k) as Hne.
    { intros Heq. apply Hnotin. cbn [fst] in Heq. rewrite Heq.
      apply (in_map (fun kv => lower (fst kv)) defaults (k, v) Hin). }
    destruct (negb (Headers.mem h k0)); [|now apply IH].
    cbn. destruct (String.eqb_spec (lower k0) (lower k)) as [Heq|_];
      [contradiction | now apply IH].
Qed.

Lemma in_missing_iff h defaults k v :
  In (k, v) defaults ->
  NoDup (map (fun kv => lower (fst kv)) defaults) ->
  (In (lower k, v) (missing h defaults) <-> Headers.mem h k = false).
Proof.
  intros Hin Hnd. split.
  - unfold missing. rewrite in_map_iff.
    intros ([k' v'] & Heq & Hf). apply filter_In in Hf as [Hin' Hneg].
    cbn in Heq, Hneg. injection Heq as Hk ->.
    apply negb_true_iff in Hneg.
    rewrite !mem_lookup in *.
    assert (forall h, Headers.lookup h k' = Headers.lookup h k) as Hl.
    { clear - Hk. induction h as [|[a b] h IH]; [reflexivity|].
      cbn. rewrite Hk. now rewrite IH. }
    now rewrite <- Hl.
  - intros Hmem. unfold missing. apply in_map_iff.
    exists (k, v). split; [reflexivity|].
    apply filter_In. split; [assumption|]. cbn. now rewrite Hmem.
Qed.

(** ** The security-headers stage *)

Lemma security_dispatch_headers h :
  Headers.setdefault
    (Headers.setdefault
       (Headers.setdefault
          (Headers.setdefault
             (Headers.setdefault h "X-Content-Type-Options" "nosniff")
             "X-Frame-Options" "DENY")
          "X-XSS-Protection" "1; mode=block")
       "Referrer-Policy" "no-referrer")
    "Permissions-Policy" "geolocation=()" =
  setdefaults h security_headers.
Proof. reflexivity. Qed.

(** C6.  When the rest of the chain raises, the stage lets the failure
    through.  When it returns a response, the stage returns that response
    with the same status and body and with header list [h ++ added], where
    [h] is the list it received and [added] holds, for each of the five
    hardening headers, its default exactly when that name was not in [h].
    So a header is set if and only if it was absent, a value that was
    present is what a lookup still finds, and lookups of every other name
    give what they gave before. *)
Theorem security_headers_set_if_absent
  request (call_next : Handler) (w : World) :
  match call_next request w with
  | (inl exc, w') =>
      SecurityHeadersMiddleware_dispatch request call_next w = (inl exc, w')
  | (inr response, w') =>
      let h := Response.headers response in
      let h' := h ++ missing h security_headers in
      SecurityHeadersMiddleware_dispatch request call_next w =
        (inr (Response.mk (Response.status_code response) h'
                          (Response.body response)), w') /\
      (forall k v,
          In (k, v) security_headers ->
          (In (lower k, v) (missing h security_headers) <->
           Headers.mem h k = false)) /\
      (forall k v,
          In (k, v) security_headers ->
          Headers.lookup h' k =
          if Headers.mem h k then Headers.lookup h k else Some v) /\
      (forall k,
          ~ In (lower k) (map (fun kv => lower (fst kv)) security_headers) ->
          Headers.lookup h' k = Headers.lookup h k)
  end.
Proof.
  unfold SecurityHeadersMiddleware_dispatch, bind.
  destruct (call_next request w) as [[exc|response] w']; [reflexivity|].
  cbv zeta. rewrite security_dispatch_headers.
  rewrite (setdefaults_spec _ security_headers_distinct).
  split; [reflexivity|]. split; [|split].
  - intros k v Hin. apply in_missing_iff;
      [assumption | exact security_headers_distinct].
  - intros k v Hin. rewrite lookup_app, mem_lookup.
    destruct (Headers.lookup (Response.headers response) k) eqn:Hl;
      [reflexivity|].
    apply lookup_missing_default;
      [exact security_headers_distinct | assumption |].
    now rewrite mem_lookup, Hl.
  - intros k Hnin. rewrite lookup_app, lookup_missing_other by assumption.
    now destruct (Headers.lookup (Response.headers response) k).
Qed.

(** ** The logging stage *)

(** C8.  The stage reads the clock once before it runs the rest of the
    chain and once after.  When the rest of the chain returns a response,
    the stage returns that response and has appended one INFO record
    holding the method, the path, the client address (the host of
    [request.client], or ["unknown"] when there is none), the elapsed
    milliseconds [int((after - before) * 1000)] and the status code.  When
    it raises, the stage has appended one ERROR record with method, path,
    client address and elapsed milliseconds, carrying the failure, and
    raises that same failure: whatever encloses the stage in a
    [try]/[except] gets to handle it. *)
Theorem logging_stage_logs_and_reraises
  request (call_next : Handler) (w : World) :
  let before := clock w (clock_reads w) in
  let w0 := mkWorld (clock w) (S (clock_reads w)) (log w) in
  let client_address :=
    match Request.client request with
    | Some (host, port) => host
    | None => "unknown"
    end in
  match call_next request w0 with
  | (inr response, w1) =>
      let after := clock w1 (clock_reads w1) in
      let elapsed_ms :=
        int_of_float
          (float_mul (float_sub after before) (float_of_int 1000)) in
      RequestLoggingMiddleware_dispatch request call_next w =
      (inr response,
       mkWorld (clock w1) (S (clock_reads w1))
         (log w1 ++
          [mkLogRecord INFO "%s %s - %s - %sms - %s"
             [ArgStr (Request.method request);
              ArgStr (Request.path request);
              ArgStr client_address;
              ArgInt elapsed_ms;
              ArgInt (Response.status_code response)]
             None]))
  | (inl exc, w1) =>
      let after := clock w1 (clock_reads w1) in
      let elapsed_ms :=
        int_of_float
          (float_mul (float_sub after before) (float_of_int 1000)) in
      let w2 :=
        mkWorld (clock w1) (S (clock_reads w1))
          (log w1 ++
           [mkLogRecord ERROR "Unhandled error for %s %s - %s - %sms"
              [ArgStr (Request.method request);
               ArgStr (Request.path request);
               ArgStr client_address;
               ArgInt elapsed_ms]
              (Some exc)]) in
      RequestLoggingMiddleware_dispatch request call_next w = (inl exc, w2) /\
      (forall handler : Exception -> M Response.t,
          try_except (RequestLoggingMiddleware_dispatch request call_next)
                     handler w =
          handler exc w2)
  end.
Proof.
  cbv zeta.
  unfold RequestLoggingMiddleware_dispatch, try_except, bind, time_time,
    duration, client_host.
  cbn [clock clock_reads log].
  destruct (call_next request _) as [[exc|response] w1]; cbn.
  - split; [reflexivity|]. intros handler. reflexivity.
  - reflexivity.
Qed.

(** ** The stack of [create_app] *)

(** The list of lines 108-119 nests as written: CORS outermost, then gzip,
    security headers, logging, and the size limit next to the application,
    with the limit of line 119. *)
Lemma create_app_stack_order
  (CORSMiddleware GZipMiddleware : Middleware) (app : Handler) request :
  build_stack (middlewares CORSMiddleware GZipMiddleware) app request =
  CORSMiddleware request (fun r1 =>
    GZipMiddleware r1 (fun r2 =>
      SecurityHeadersMiddleware_dispatch r2 (fun r3 =>
        RequestLoggingMiddleware_dispatch r3 (fun r4 =>
          JSONSizeLimitMiddleware_dispatch 1048576 r4 app)))).
Proof. reflexivity. Qed.

(** ** The health check *)

(** C9.  A GET for ["/"] is routed to [health_check], which takes no
    argument and returns [{"message": "Healthy"}] in the world it was run
    in; the route answers with status 200 and that body, and so does the
    chain of this file's three stages around it. *)
Theorem health_check_returns_healthy
  (fallback : Handler) request (w : World) :
  Request.method request = "GET" ->
  Request.path request = "/" ->
  let healthy := JDict [("message", JStr "Healthy")] in
  health_check w = (inr healthy, w) /\
  router fallback request w = (inr (JSONResponse 200 healthy), w) /\
  exists response w',
    build_stack local_middlewares (router fallback) request w =
      (inr response, w') /\
    Response.status_code response = 200%Z /\
    Response.body response = JSONContent healthy.
Proof.
  intros Hmethod Hpath. cbv zeta.
  assert (router fallback request =
          fun w => (inr (JSONResponse 200 (JDict [("message", JStr "Healthy")])), w))
    as Hroute.
  { unfold router. now rewrite Hmethod, Hpath. }
  split; [reflexivity|]. split; [now rewrite Hroute|].
  unfold build_stack, local_middlewares. cbn [fold_right]. unfold wrap.
  unfold SecurityHeadersMiddleware_dispatch, RequestLoggingMiddleware_dispatch,
    JSONSizeLimitMiddleware_dispatch.
  rewrite Hmethod. cbn [str_in existsb String.eqb Ascii.eqb Bool.eqb orb].
  rewrite Hroute.
  unfold try_except, bind, time_time, logger_info, emit, ret. cbn.
  eexists. eexists. split; [reflexivity|]. split; reflexivity.
Qed.

(** * Further properties of the stages *)

(** ** The size-limit stage outside its happy paths *)

Lemma get_absent h key default :
  Headers.mem h key = false -> Headers.get h key default = default.
Proof.
  induction h as [|[k v] h IH]; [reflexivity|].
  cbn. destruct (String.eqb k (lower key)); [discriminate | exact IH].
Qed.

Lemma str_in_false_iff x xs : str_in x xs = false <-> ~ In x xs.
Proof.
  split.
  - intros H Hin. apply str_in_iff in Hin. congruence.
  - intros H. destruct (str_in x xs) eqn:E; [|reflexivity].
    apply str_in_iff in E. contradiction.
Qed.

(** The stage on a request that passes both tests of lines 63-65. *)
Lemma size_limit_in_scope max_bytes request (call_next : Handler) :
  In (Request.method request) ["POST"; "PUT"; "PATCH"] ->
  contains "application/json"
    (Headers.get (Request.headers request) "content-type" "") = true ->
  JSONSizeLimitMiddleware_dispatch max_bytes request call_next =
  match Request.body request with
  | (inl exc, _) => raise exc
  | (inr body, request1) =>
      if (len body >? max_bytes)%Z then
        ret (JSONResponse 413 (payload_too_large max_bytes))
      else call_next (Request.set_receive request1 (receive_with_body body))
  end.
Proof.
  intros Hmethod Htype. unfold JSONSizeLimitMiddleware_dispatch.
  apply str_in_iff in Hmethod. now rewrite Hmethod, Htype.
Qed.

Lemma len_nonneg b : (0 <= len b)%Z.
Proof. unfold len. lia. Qed.

(** X1.  A request with any other method, with no content-type header at
    all, or with a content type that does not contain [application/json]
    (the test is case-sensitive) is handed to [call_next] as it is: its body
    is not read and its size is not checked. *)
Theorem size_limit_skips_out_of_scope
  max_bytes request (call_next : Handler) :
  ~ In (Request.method request) ["POST"; "PUT"; "PATCH"] \/
  Headers.mem (Request.headers request) "content-type" = false \/
  contains "application/json"
    (Headers.get (Request.headers request) "content-type" "") = false ->
  JSONSizeLimitMiddleware_dispatch max_bytes request call_next =
  call_next request.
Proof.
  intros [Hmethod | [Habsent | Htype]];
    unfold JSONSizeLimitMiddleware_dispatch.
  - apply str_in_false_iff in Hmethod. now rewrite Hmethod.
  - rewrite (get_absent _ _ _ Habsent). cbn [contains startswith orb].
    now destruct (str_in _ _).
  - rewrite Htype. now destruct (str_in _ _).
Qed.

(** X2.  When reading the body fails (the client went away before the last
    chunk), the stage raises that failure; it builds no response, leaves
    clock and log alone and does not run the rest of the chain. *)
Theorem size_limit_propagates_read_failure
  max_bytes request exc request1 (call_next : Handler) (w : World) :
  In (Request.method request) ["POST"; "PUT"; "PATCH"] ->
  contains "application/json"
    (Headers.get (Request.headers request) "content-type" "") = true ->
  Request.body request = (inl exc, request1) ->
  JSONSizeLimitMiddleware_dispatch max_bytes request call_next w =
  (inl exc, w).
Proof.
  intros Hmethod Htype Hbody.
  rewrite size_limit_in_scope by assumption. now rewrite Hbody.
Qed.

Lemma set_receive_twice r rcv1 rcv2 :
  Request.set_receive (Request.set_receive r rcv1) rcv2 =
  Request.set_receive r rcv2.
Proof. reflexivity. Qed.

(** X3.  Installing the stage twice with the same limit behaves as
    installing it once: the inner copy finds the body the outer one cached,
    agrees with its verdict and re-installs the same [receive]. *)
Theorem size_limit_nested_twice
  max_bytes request (call_next : Handler) (w : World) :
  JSONSizeLimitMiddleware_dispatch max_bytes request
    (fun r => JSONSizeLimitMiddleware_dispatch max_bytes r call_next) w =
  JSONSizeLimitMiddleware_dispatch max_bytes request call_next w.
Proof.
  destruct (str_in (Request.method request) ["POST"; "PUT"; "PATCH"])
    eqn:Hmethod.
  2:{ apply str_in_false_iff in Hmethod.
      rewrite !size_limit_skips_out_of_scope by (now left). reflexivity. }
  destruct (contains "application/json"
              (Headers.get (Request.headers request) "content-type" ""))
    eqn:Htype.
  2:{ rewrite !size_limit_skips_out_of_scope by (now right; right).
      reflexivity. }
  apply str_in_iff in Hmethod.
  rewrite !(size_limit_in_scope max_bytes request) by assumption.
  destruct (Request.body request) as [[exc|body] request1] eqn:Hbody;
    [reflexivity|].
  destruct (len body >? max_bytes)%Z eqn:Hlen; [reflexivity|].
  destruct (body_ok_cached _ _ _ Hbody) as (Hc & Hm & _ & Hh & _).
  rewrite size_limit_in_scope.
  - rewrite (body_cached _ body) by exact Hc.
    now rewrite Hlen, set_receive_twice.
  - cbn. now rewrite Hm.
  - cbn. now rewrite Hh.
Qed.

(** X4.  An empty body is rejected exactly when the configured limit is
    negative; the constructor accepts such a limit, and with it every JSON
    request is answered 413.  With a limit of zero or more the empty body
    goes on to [call_next]. *)
Theorem size_limit_empty_body
  max_bytes request request1 (call_next : Handler) (w : World) :
  In (Request.method request) ["POST"; "PUT"; "PATCH"] ->
  contains "application/json"
    (Headers.get (Request.headers request) "content-type" "") = true ->
  Request.body request = (inr [], request1) ->
  JSONSizeLimitMiddleware_dispatch max_bytes request call_next w =
  if (max_bytes <? 0)%Z
  then (inr (JSONResponse 413 (payload_too_large max_bytes)), w)
  else call_next (Request.set_receive request1 (receive_with_body [])) w.
Proof.
  intros Hmethod Htype Hbody.
  rewrite size_limit_in_scope by assumption. rewrite Hbody.
  change (len []) with 0%Z.
  destruct (Z.ltb_spec max_bytes 0) as [Hneg|Hpos];
    destruct (Z.gtb_spec 0 max_bytes) as [Hgt|Hle];
    try reflexivity; lia.
Qed.

(** A negative limit rejects whatever the body is. *)
Lemma size_limit_negative_rejects_all
  max_bytes request body request1 (call_next : Handler) (w : World) :
  In (Request.method request) ["POST"; "PUT"; "PATCH"] ->
  contains "application/json"
    (Headers.get (Request.headers request) "content-type" "") = true ->
  Request.body request = (inr body, request1) ->
  (max_bytes < 0)%Z ->
  JSONSizeLimitMiddleware_dispatch max_bytes request call_next w =
  (inr (JSONResponse 413 (payload_too_large max_bytes)), w).
Proof.
  intros Hmethod Htype Hbody Hneg.
  rewrite size_limit_in_scope by assumption. rewrite Hbody.
  pose proof (len_nonneg body).
  destruct (Z.gtb_spec (len body) max_bytes); [reflexivity | lia].
Qed.

(** X5.  The 413 body written out at lines 72-78 is the body the shared
    helper [json_error_response] builds from the same status, message, code
    and details: both error paths produce the same envelope. *)
Theorem size_limit_envelope_matches_helper max_bytes :
  JSONResponse 413 (payload_too_large max_bytes) =
  json_error_response 413 "Payload too large" "PAYLOAD_TOO_LARGE"
    (Some [("limit_bytes", JInt max_bytes)]).
Proof. reflexivity. Qed.

(** ** The security-headers stage, applied and re-applied *)

(** What the stage does to a header list. *)
Lemma security_dispatch_result request (call_next : Handler) (w : World) :
  SecurityHeadersMiddleware_dispatch request call_next w =
  match call_next request w with
  | (inl exc, w') => (inl exc, w')
  | (inr response, w') =>
      (inr (Response.with_headers response
              (Response.headers response ++
               missing (Response.headers response) security_headers)), w')
  end.
Proof.
  unfold SecurityHeadersMiddleware_dispatch, bind.
  destruct (call_next request w) as [[exc|response] w']; [reflexivity|].
  cbv zeta. rewrite security_dispatch_headers.
  now rewrite (setdefaults_spec _ security_headers_distinct).
Qed.

(** Once the defaults have been appended, every one of their names is in
    the list. *)
Lemma mem_after_missing h defaults k v :
  NoDup (map (fun kv => lower (fst kv)) defaults) ->
  In (k, v) defaults ->
  Headers.mem (h ++ missing h defaults) k = true.
Proof.
  intros Hnd Hin. rewrite mem_app.
  destruct (Headers.mem h k) eqn:Hmem; [reflexivity|].
  cbn. rewrite mem_lookup.
  now rewrite (lookup_missing_default h defaults Hnd k v Hin Hmem).
Qed.

(** Nothing is missing from a list the defaults were appended to. *)
Lemma missing_after_missing h defaults :
  NoDup (map (fun kv => lower (fst kv)) defaults) ->
  missing (h ++ missing h defaults) defaults = [].
Proof.
  intros Hnd. unfold missing at 1.
  assert (forall l : list (string * string),
             incl l defaults ->
             filter (fun kv =>
                       negb (Headers.mem (h ++ missing h defaults) (fst kv)))
                    l = []) as Hnone.
  { induction l as [|[k v] l IH]; intros Hincl; [reflexivity|].
    cbn [filter fst].
    rewrite (mem_after_missing h defaults k v Hnd) by (apply Hincl; now left).
    cbn. apply IH. intros x Hx. apply Hincl. now right. }
  now rewrite (Hnone defaults (incl_refl _)).
Qed.

Lemma missing_length h defaults :
  (List.length (missing h defaults) <= List.length defaults)%nat.
Proof.
  unfold missing. rewrite length_map. apply filter_length_le.
Qed.

(** X6.  Running the stage twice is the same as running it once: the second
    pass finds all five names present and adds nothing. *)
Theorem security_headers_idempotent
  request (call_next : Handler) (w : World) :
  SecurityHeadersMiddleware_dispatch request
    (fun r => SecurityHeadersMiddleware_dispatch r call_next) w =
  SecurityHeadersMiddleware_dispatch request call_next w.
Proof.
  rewrite (security_dispatch_result request
             (fun r => SecurityHeadersMiddleware_dispatch r call_next)).
  rewrite security_dispatch_result.
  destruct (call_next request w) as [[exc|response] w']; [reflexivity|].
  cbn [Response.with_headers Response.headers Response.status_code
       Response.body].
  rewrite (missing_after_missing _ _ security_headers_distinct).
  now rewrite app_nil_r.
Qed.

(** X7.  Every response that leaves the stage has all five hardening
    headers, whatever the rest of the chain returned.  Its status and body
    are those of the response the rest of the chain returned, and its
    header list is that response's list, entry for entry and in the same
    order, followed by at most five added entries, each of them one of the
    five defaults; so no incoming header is removed, moved or overridden,
    and every name that was present still looks up to the value it had. *)
Theorem security_headers_all_present
  request (call_next : Handler) (w w' : World) response :
  SecurityHeadersMiddleware_dispatch request call_next w = (inr response, w') ->
  (forall k v,
      In (k, v) security_headers ->
      Headers.mem (Response.headers response) k = true) /\
  exists response0 added,
    call_next request w = (inr response0, w') /\
    Response.status_code response = Response.status_code response0 /\
    Response.body response = Response.body response0 /\
    Response.headers response = Response.headers response0 ++ added /\
    (List.length added <= 5)%nat /\
    (forall name value,
        In (name, value) added ->
        exists k, In (k, value) security_headers /\ name = lower k) /\
    (forall key,
        Headers.mem (Response.headers response0) key = true ->
        Headers.lookup (Response.headers response) key =
        Headers.lookup (Response.headers response0) key).
Proof.
  rewrite security_dispatch_result.
  destruct (call_next request w) as [[exc|response0] w0]; [discriminate|].
  intros H. injection H as <- <-.
  cbn [Response.with_headers Response.headers Response.status_code
       Response.body].
  split.
  - intros k v Hin.
    now apply (mem_after_missing _ security_headers k v
                 security_headers_distinct).
  - exists response0, (missing (Response.headers response0) security_headers).
    split; [reflexivity|]. split; [reflexivity|]. split; [reflexivity|].
    split; [reflexivity|]. split; [|split].
    + pose proof (missing_length (Response.headers response0)
                    security_headers) as Hlen.
      cbn [List.length security_headers] in Hlen. exact Hlen.
    + intros name value Hin. unfold missing in Hin.
      apply in_map_iff in Hin as ([k v] & Heq & Hf).
      apply filter_In in Hf as [Hin _]. cbn [fst snd] in Heq.
      injection Heq as <- <-. now exists k.
    + intros key Hmem. rewrite lookup_app. rewrite mem_lookup in Hmem.
      now destruct (Headers.lookup (Response.headers response0) key).
Qed.

(** ** Stages composed *)

(** X8.  The security-headers stage and the logging stage can be stacked in
    either order: for every request and every rest of the chain, response,
    failure, clock reads and log come out the same. *)
Theorem security_and_logging_commute
  request (call_next : Handler) (w : World) :
  SecurityHeadersMiddleware_dispatch request
    (fun r => RequestLoggingMiddleware_dispatch r call_next) w =
  RequestLoggingMiddleware_dispatch request
    (fun r => SecurityHeadersMiddleware_dispatch r call_next) w.
Proof.
  unfold SecurityHeadersMiddleware_dispatch, RequestLoggingMiddleware_dispatch,
    try_except, bind, time_time, logger_info, logger_exception, emit, raise,
    ret.
  cbn [clock clock_reads log].
  destruct (call_next request _) as [[exc|response] w1]; reflexivity.
Qed.

(** The logging stage, with the two records named. *)
Lemma logging_dispatch_result request (call_next : Handler) (w : World) :
  RequestLoggingMiddleware_dispatch request call_next w =
  let start := clock w (clock_reads w) in
  match call_next request (mkWorld (clock w) (S (clock_reads w)) (log w)) with
  | (inr response, w1) =>
      (inr response,
       logged w1 (access_record request
                    (duration start (clock w1 (clock_reads w1)))
                    (Response.status_code response)))
  | (inl exc, w1) =>
      (inl exc,
       logged w1 (failure_record request
                    (duration start (clock w1 (clock_reads w1))) exc))
  end.
Proof.
  unfold RequestLoggingMiddleware_dispatch, try_except, bind, time_time,
    logger_info, logger_exception, emit, raise, ret, logged, access_record,
    failure_record.
  cbn [clock clock_reads log].
  destruct (call_next request _) as [[exc|response] w1]; reflexivity.
Qed.

(** X9.  The three stages of this file around any application.  Whatever
    the size-limit stage and the application produce is logged exactly
    once: a response at INFO with the status the caller gets, a failure at
    ERROR.  A response comes out with its status and body, its headers kept
    in place and the absent hardening headers appended; a failure comes out
    as it was raised. *)
Theorem local_chain_behaviour
  max_bytes (app : Handler) request (w : World) :
  let start := clock w (clock_reads w) in
  match JSONSizeLimitMiddleware_dispatch max_bytes request app
          (mkWorld (clock w) (S (clock_reads w)) (log w)) with
  | (inr response, w1) =>
      local_chain max_bytes app request w =
      (inr (Response.mk (Response.status_code response)
              (Response.headers response ++
               missing (Response.headers response) security_headers)
              (Response.body response)),
       logged w1 (access_record request
                    (duration start (clock w1 (clock_reads w1)))
                    (Response.status_code response)))
  | (inl exc, w1) =>
      local_chain max_bytes app request w =
      (inl exc,
       logged w1 (failure_record request
                    (duration start (clock w1 (clock_reads w1))) exc))
  end.
Proof.
  cbv zeta. unfold local_chain, build_stack. cbn [fold_right]. unfold wrap.
  rewrite security_dispatch_result, logging_dispatch_result. cbv zeta.
  destruct (JSONSizeLimitMiddleware_dispatch max_bytes request app _)
    as [[exc|response] w1]; reflexivity.
Qed.

(** [create_app] installs this chain with the limit of line 119. *)
Lemma local_chain_of_create_app (app : Handler) :
  build_stack local_middlewares app = local_chain 1048576 app.
Proof. reflexivity. Qed.

(** X10.  An oversized JSON request through the three stages: the caller
    gets the 413 envelope with the five hardening headers, the log gains
    one INFO record with status 413, the clock is read twice, and the
    application is not run, whatever it is. *)
Theorem local_chain_rejects_oversized
  max_bytes (app : Handler) request body request1 (w : World) :
  In (Request.method request) ["POST"; "PUT"; "PATCH"] ->
  contains "application/json"
    (Headers.get (Request.headers request) "content-type" "") = true ->
  Request.body request = (inr body, request1) ->
  (max_bytes < len body)%Z ->
  local_chain max_bytes app request w =
  (inr (Response.mk 413
          [("content-type", "application/json");
           ("x-content-type-options", "nosniff");
           ("x-frame-options", "DENY");
           ("x-xss-protection", "1; mode=block");
           ("referrer-policy", "no-referrer");
           ("permissions-policy", "geolocation=()")]
          (JSONContent (payload_too_large max_bytes))),
   mkWorld (clock w) (S (S (clock_reads w)))
     (log w ++
      [access_record request
         (duration (clock w (clock_reads w)) (clock w (S (clock_reads w))))
         413])).
Proof.
  intros Hmethod Htype Hbody Hlen.
  unfold local_chain, build_stack. cbn [fold_right]. unfold wrap.
  rewrite security_dispatch_result, logging_dispatch_result. cbv zeta.
  rewrite size_limit_in_scope by assumption. rewrite Hbody.
  apply Z.gtb_lt in Hlen. rewrite Hlen. reflexivity.
Qed.

(** ** The log is only appended to *)

Lemma log_grows_refl (w : World) : log_grows w w.
Proof. exists []. now rewrite app_nil_r. Qed.

Lemma log_grows_trans (w1 w2 w3 : World) :
  log_grows w1 w2 -> log_grows w2 w3 -> log_grows w1 w3.
Proof.
  intros [a Ha] [b Hb]. exists (a ++ b). now rewrite Hb, Ha, app_assoc.
Qed.

Lemma security_stage_append_only (call_next : Handler) :
  append_only call_next ->
  append_only (fun r => SecurityHeadersMiddleware_dispatch r call_next).
Proof.
  intros Hnext request w. rewrite security_dispatch_result.
  specialize (Hnext request w).
  destruct (call_next request w) as [[exc|response] w']; exact Hnext.
Qed.

Lemma logging_stage_append_only (call_next : Handler) :
  append_only call_next ->
  append_only (fun r => RequestLoggingMiddleware_dispatch r call_next).
Proof.
  intros Hnext request w. rewrite logging_dispatch_result. cbv zeta.
  specialize (Hnext request (mkWorld (clock w) (S (clock_reads w)) (log w))).
  destruct (call_next request _) as [[exc|response] w1]; cbn [snd] in *;
    (apply log_grows_trans with w1;
     [destruct Hnext as [a Ha]; exists a; exact Ha
     | eexists; reflexivity]).
Qed.

Lemma size_limit_stage_append_only max_bytes (call_next : Handler) :
  append_only call_next ->
  append_only (fun r => JSONSizeLimitMiddleware_dispatch max_bytes r call_next).
Proof.
  intros Hnext request w. unfold JSONSizeLimitMiddleware_dispatch.
  destruct (str_in _ _); [|apply Hnext].
  destruct (contains _ _); [|apply Hnext].
  destruct (Request.body request) as [[exc|body] request1];
    [apply log_grows_refl|].
  destruct (len body >? max_bytes)%Z; [apply log_grows_refl | apply Hnext].
Qed.

(** X11.  Around an application that only appends to the log, the chain of
    [create_app]'s three stages only appends to it as well: no earlier
    record is dropped, changed or reordered, on any path (response,
    rejection or failure). *)
Theorem local_chain_log_append_only (app : Handler) :
  append_only app ->
  append_only (build_stack local_middlewares app).
Proof.
  intros Happ. unfold build_stack, local_middlewares. cbn [fold_right].
  unfold wrap.
  apply (security_stage_append_only
           (fun r => RequestLoggingMiddleware_dispatch r
              (fun r0 => JSONSizeLimitMiddleware_dispatch (1 * 1024 * 1024)
                           r0 app))).
  apply (logging_stage_append_only
           (fun r => JSONSizeLimitMiddleware_dispatch (1 * 1024 * 1024) r app)).
  now apply size_limit_stage_append_only.
Qed.

End Properties.

(** * The statements at concrete inputs *)

Lemma size_limit_rejects_large_body_witness :
  In (Request.method post_request) ["POST"; "PUT"; "PATCH"] /\
  Request.body post_request = (inr eleven_bytes, post_request_read) /\
  (10 < len eleven_bytes)%Z /\
  JSONSizeLimitMiddleware_dispatch 10 post_request traced_handler
    tick_world =
  (inr (JSONResponse 413 (payload_too_large 10)), tick_world).
Proof.
  split; [simpl; tauto|]. split; [reflexivity|]. split; [reflexivity|].
  apply (size_limit_rejects_large_body 10 post_request eleven_bytes
           post_request_read traced_handler tick_world).
  - simpl; tauto.
  - reflexivity.
  - reflexivity.
  - reflexivity.
Defined.

Lemma size_limit_passes_body_unchanged_witness :
  (len eleven_bytes <= 1048576)%Z /\
  exists request2,
    (forall (call_next : @Handler integer_clock) (w : World),
        JSONSizeLimitMiddleware_dispatch 1048576 post_request call_next w =
        call_next request2 w) /\
    Request.method request2 = Request.method post_request /\
    Request.path request2 = Request.path post_request /\
    Request.headers request2 = Request.headers post_request /\
    Request.client request2 = Request.client post_request /\
    fst (Request.body request2) = inr eleven_bytes /\
    fst (Request.body
           (Request.over request2 (Request._receive request2))) =
      inr eleven_bytes.
Proof.
  split; [vm_compute; discriminate|].
  apply (@size_limit_passes_body_unchanged integer_clock 1048576 post_request eleven_bytes
           post_request_read).
  - simpl; tauto.
  - reflexivity.
  - reflexivity.
  - vm_compute; discriminate.
Defined.

Lemma size_limit_body_reads_repeatable_witness :
  exists request2,
    (forall (call_next : @Handler integer_clock) (w : World),
        JSONSizeLimitMiddleware_dispatch 1048576 post_request call_next w =
        call_next request2 w) /\
    Request._receive request2 = receive_with_body eleven_bytes /\
    (forall n,
        receive_n n (Request._receive request2) =
        (repeat (http_request eleven_bytes false) n,
         Request._receive request2)) /\
    (forall n,
        read_n n request2 (Request._receive request2) =
        (repeat (inr eleven_bytes) n, Request._receive request2)) /\
    Request.body request2 = (inr eleven_bytes, request2).
Proof.
  apply (@size_limit_body_reads_repeatable integer_clock 1048576 post_request eleven_bytes
           post_request_read).
  - simpl; tauto.
  - reflexivity.
  - reflexivity.
  - vm_compute; discriminate.
Defined.

Lemma unhandled_failure_gives_generic_500_witness :
  is_validation_error division_by_zero = false /\
  Response.status_code (error_translator post_request division_by_zero) =
    500%Z /\
  Response.body (error_translator post_request division_by_zero) =
    JSONContent
      (JDict [("error",
               JDict [("message", JStr "Internal server error");
                      ("code", JStr "INTERNAL_SERVER_ERROR")])]).
Proof.
  split; [reflexivity|].
  pose proof (unhandled_failure_gives_generic_500 post_request
                division_by_zero eq_refl) as H.
  split; [exact (proj1 H) | exact (proj1 (proj2 H))].
Defined.

Lemma health_check_returns_healthy_witness :
  Request.method get_root = "GET" /\
  Request.path get_root = "/" /\
  router traced_handler get_root tick_world =
    (inr (JSONResponse 200 (JDict [("message", JStr "Healthy")])), tick_world).
Proof.
  split; [reflexivity|]. split; [reflexivity|].
  exact (proj1 (proj2 (health_check_returns_healthy traced_handler get_root
                         tick_world eq_refl eq_refl))).
Defined.

(** The spec's own example for the size limit: limit 10, body of 11 bytes;
    the handler's trace record is not in the log. *)
Example size_limit_example :
  JSONSizeLimitMiddleware_dispatch 10 post_request traced_handler
    tick_world =
  (inr (JSONResponse 413 (payload_too_large 10)), tick_world) /\
  log (snd (traced_handler post_request tick_world)) <> [].
Proof. split; [reflexivity | discriminate]. Qed.

(** The same rejection seen from outside the logging and security stages:
    the 413 comes back through them, is logged with its status and gets the
    hardening headers. *)
Example size_limit_in_chain_example :
  build_stack
    [SecurityHeadersMiddleware_dispatch; RequestLoggingMiddleware_dispatch;
     JSONSizeLimitMiddleware_dispatch 10]
    traced_handler post_request tick_world =
  (inr (Response.mk 413
          [("content-type", "application/json");
           ("x-content-type-options", "nosniff");
           ("x-frame-options", "DENY");
           ("x-xss-protection", "1; mode=block");
           ("referrer-policy", "no-referrer");
           ("permissions-policy", "geolocation=()")]
          (JSONContent (payload_too_large 10))),
   @mkWorld integer_clock (fun n => Z.of_nat n) 2%nat
     [mkLogRecord INFO "%s %s - %s - %sms - %s"
        [ArgStr "POST"; ArgStr "/items"; ArgStr "127.0.0.1"; ArgInt 1000;
         ArgInt 413]
        None]).
Proof. reflexivity. Qed.

(** A header the handler set is kept; the four others are appended. *)
Example security_headers_example :
  SecurityHeadersMiddleware_dispatch get_root framed_handler tick_world =
  (inr (Response.mk 200
          [("x-frame-options", "SAMEORIGIN");
           ("x-content-type-options", "nosniff");
           ("x-xss-protection", "1; mode=block");
           ("referrer-policy", "no-referrer");
           ("permissions-policy", "geolocation=()")]
          (RawBytes [])),
   tick_world).
Proof. reflexivity. Qed.

(** A failing handler: one ERROR record, the failure comes out as it was. *)
Example logging_failure_example :
  RequestLoggingMiddleware_dispatch post_request failing_handler tick_world =
  (inl division_by_zero,
   @mkWorld integer_clock (fun n => Z.of_nat n) 2%nat
     [mkLogRecord ERROR "Unhandled error for %s %s - %s - %sms"
        [ArgStr "POST"; ArgStr "/items"; ArgStr "127.0.0.1"; ArgInt 1000]
        (Some division_by_zero)]).
Proof. reflexivity. Qed.

(** GET / through the three stages of this file: 200, the health body, the
    five hardening headers, one INFO record. *)
Example health_check_example :
  build_stack local_middlewares (router traced_handler) get_root tick_world =
  (inr (Response.mk 200
          [("content-type", "application/json");
           ("x-content-type-options", "nosniff");
           ("x-frame-options", "DENY");
           ("x-xss-protection", "1; mode=block");
           ("referrer-policy", "no-referrer");
           ("permissions-policy", "geolocation=()")]
          (JSONContent (JDict [("message", JStr "Healthy")]))),
   @mkWorld integer_clock (fun n => Z.of_nat n) 2%nat
     [mkLogRecord INFO "%s %s - %s - %sms - %s"
        [ArgStr "GET"; ArgStr "/"; ArgStr "unknown"; ArgInt 1000; ArgInt 200]
        None]).
Proof. reflexivity. Qed.

(** The membership tests of line 63 and line 65 on sample values. *)
Example content_type_examples :
  contains "application/json" "application/json; charset=utf-8" = true /\
  contains "application/json" "text/plain" = false /\
  contains "application/json" "Application/JSON" = false /\
  str_in "PATCH" ["POST"; "PUT"; "PATCH"] = true /\
  str_in "post" ["POST"; "PUT"; "PATCH"] = false /\
  lower "X-Content-Type-Options" = "x-content-type-options".
Proof. repeat split. Qed.

(** * The further properties at concrete inputs *)

(** Eleven bytes against a limit of ten, but no content type: not checked. *)
Lemma size_limit_skips_out_of_scope_witness :
  Headers.mem (Request.headers untyped_post) "content-type" = false /\
  (10 < len eleven_bytes)%Z /\
  JSONSizeLimitMiddleware_dispatch 10 untyped_post traced_handler tick_world =
  traced_handler untyped_post tick_world.
Proof.
  split; [reflexivity|]. split; [reflexivity|].
  exact (f_equal (fun m => m tick_world)
           (size_limit_skips_out_of_scope 10 untyped_post traced_handler
              (or_intror (or_introl eq_refl)))).
Defined.

Lemma size_limit_propagates_read_failure_witness :
  Request.body truncated_post =
    (inl ClientDisconnect,
     Request.set_receive truncated_post (asgi_receive [])) /\
  JSONSizeLimitMiddleware_dispatch 10 truncated_post traced_handler
    tick_world =
  (inl ClientDisconnect, tick_world).
Proof.
  split; [reflexivity|].
  apply (size_limit_propagates_read_failure 10 truncated_post ClientDisconnect
           (Request.set_receive truncated_post (asgi_receive []))
           traced_handler tick_world).
  - simpl; tauto.
  - reflexivity.
  - reflexivity.
Defined.

Lemma size_limit_empty_body_witness :
  JSONSizeLimitMiddleware_dispatch (-1) empty_post traced_handler tick_world =
  (inr (JSONResponse 413 (payload_too_large (-1))), tick_world).
Proof.
  apply (size_limit_empty_body (-1) empty_post
           (Request.mk "POST" "/items" [("content-type", "application/json")]
              None (asgi_receive []) (Some []) true)
           traced_handler tick_world).
  - simpl; tauto.
  - reflexivity.
  - reflexivity.
Defined.

Lemma security_headers_all_present_witness :
  Headers.mem
    [("x-frame-options", "SAMEORIGIN");
     ("x-content-type-options", "nosniff");
     ("x-xss-protection", "1; mode=block");
     ("referrer-policy", "no-referrer");
     ("permissions-policy", "geolocation=()")]
    "Referrer-Policy" = true.
Proof.
  apply (proj1 (security_headers_all_present get_root framed_handler
                  tick_world tick_world
                  (Response.mk 200
                     [("x-frame-options", "SAMEORIGIN");
                      ("x-content-type-options", "nosniff");
                      ("x-xss-protection", "1; mode=block");
                      ("referrer-policy", "no-referrer");
                      ("permissions-policy", "geolocation=()")]
                     (RawBytes []))
                  eq_refl)
          "Referrer-Policy" "no-referrer").
  simpl; tauto.
Defined.

Lemma local_chain_rejects_oversized_witness :
  (10 < len eleven_bytes)%Z /\
  local_chain 10 traced_handler post_request tick_world =
  (inr (Response.mk 413
          [("content-type", "application/json");
           ("x-content-type-options", "nosniff");
           ("x-frame-options", "DENY");
           ("x-xss-protection", "1; mode=block");
           ("referrer-policy", "no-referrer");
           ("permissions-policy", "geolocation=()")]
          (JSONContent (payload_too_large 10))),
   @mkWorld integer_clock (fun n => Z.of_nat n) 2%nat
     [access_record post_request 1000 413]).
Proof.
  split; [reflexivity|].
  apply (local_chain_rejects_oversized 10 traced_handler post_request
           eleven_bytes post_request_read tick_world).
  - simpl; tauto.
  - reflexivity.
  - reflexivity.
  - reflexivity.
Defined.

Lemma traced_handler_append_only : @append_only integer_clock traced_handler.
Proof.
  intros request w.
  exists [mkLogRecord INFO "terminal handler invoked" [] None]. reflexivity.
Defined.

Lemma local_chain_log_append_only_witness :
  log_grows tick_world
    (snd (build_stack local_middlewares traced_handler post_request
            tick_world)).
Proof.
  exact (local_chain_log_append_only traced_handler
           traced_handler_append_only post_request tick_world).
Defined.

(** A truncated upload never reaches the handler; an empty body passes a
    limit of zero. *)
Example size_limit_edge_examples :
  JSONSizeLimitMiddleware_dispatch 0 empty_post traced_handler tick_world =
    traced_handler
      (Request.mk "POST" "/items" [("content-type", "application/json")]
         None (receive_with_body []) (Some []) true)
      tick_world /\
  local_chain 10 traced_handler truncated_post tick_world =
    (inl ClientDisconnect,
     @mkWorld integer_clock (fun n => Z.of_nat n) 2%nat
       [failure_record truncated_post 1000 ClientDisconnect]).
Proof. split; reflexivity. Qed.


(** * The revised statements at concrete inputs *)

(** C10 as stated fails.  The stage hands [post_request] on with the body
    cached and the closure installed.  A downstream application reads
    through the framework's wrapper: its first body read gets the eleven
    bytes, its second is not answered with them but raises
    [RuntimeError], because the closure keeps sending the body where the
    wrapper waits for the disconnect notice. *)
Lemma size_limit_second_downstream_read_raises :
  (forall (call_next : @Handler integer_clock) (w : World),
      JSONSizeLimitMiddleware_dispatch 1048576 post_request call_next w =
      call_next post_request_handed_on w) /\
  Request._receive post_request_handed_on = receive_with_body eleven_bytes /\
  exists c1 c2,
    downstream_body 1 (downstream_of post_request_handed_on) [] =
      Some (inr eleven_bytes, c1) /\
    downstream_body 1 c1 [] =
      Some (inl (RuntimeError "Unexpected message received: http.request"),
            c2).
Proof.
  split; [intros call_next w; reflexivity|]. split; [reflexivity|].
  eexists. eexists. split; reflexivity.
Qed.

Lemma validation_failure_gives_422_witness :
  to_json (PList missing_field_report) =
    Some (JList [JDict [("type", JStr "missing");
                        ("loc", JList [JStr "body"; JStr "name"]);
                        ("msg", JStr "Field required")]]) /\
  Response.status_code
    (error_translator post_request
       (RequestValidationError missing_field_report "1 validation error" "")) =
    422%Z.
Proof.
  split; [reflexivity|].
  exact (proj1 (proj2
           (validation_failure_gives_422 post_request missing_field_report
              [JDict [("type", JStr "missing");
                      ("loc", JList [JStr "body"; JStr "name"]);
                      ("msg", JStr "Field required")]]
              "1 validation error" "" eq_refl))).
Defined.

(** The translator on the three kinds of failure. *)
Example error_translator_examples :
  Response.status_code
    (error_translator get_root
       (RequestValidationError missing_field_report "" "")) = 422%Z /\
  Response.status_code
    (error_translator get_root
       (RequestValidationError value_error_report "" "")) = 500%Z /\
  Response.status_code (error_translator get_root division_by_zero) = 500%Z /\
  Response.status_code
    (error_translator get_root (RequestValidationError [] "" "")) = 422%Z /\
  envelope_field
    (Response.body
       (error_translator get_root (RequestValidationError [] "" "")))
    "details" = Some (JDict [("errors", JList [])]).
Proof. repeat split. Qed.
